(** * iris-abf: the ABF/ABL reader of [iris.io.plugins.abf]

    A shallow embedding of [src/iris/io/plugins/abf.py] and the properties
    its specification states about it.

    Conventions of the embedding.
    - Python [str] values are [string]s of 8-bit characters; only the ASCII
      behaviour of [int()], [str.lower()] and [len()] is modelled.
    - A Python object is its instance dictionary, a [gmap string pyval].
      A method is a computation in the monad [M], which threads the
      dictionary and may raise: what was assigned before an exception stays
      assigned, as on the Python object.
    - The file system is a finite map from paths to byte sequences.
    - numpy arrays are strided views over a flat buffer, as in numpy itself;
      float64 arithmetic is the IEEE 754 binary64 arithmetic of [PrimFloat].
    - Library functions the module calls ([os.path.basename], [int],
      [np.fromfile], [reshape], [calendar.monthrange], [datetime.date],
      the iris cube and coordinate constructors) are modelled after their
      reference implementations, each in a module named after the library. *)

From Stdlib Require Import ZArith String Ascii List Floats Lia Bool.
From Stdlib.Strings Require Import Byte.
From Stdlib Require Import Uint63.
From stdpp Require Import gmap strings list fin_maps pretty.
Import ListNotations.

#[local] Set Warnings "-inexact-float,-clear-no-such-hyp".

Local Open Scope string_scope.
Local Open Scope Z_scope.

(** ** Exceptions *)

Inductive exn : Type :=
| ValueError (msg : string)
| KeyError (key : string)
| AttributeError (msg : string)
| TypeError (msg : string)
| FileNotFoundError (path : string)
| IllegalMonthError (month : Z)
| TranslationError (msg : string).

(** A computation that may raise. *)
Definition result (A : Type) : Type := exn + A.

Definition Ok {A} (a : A) : result A := inr a.
Definition Raise {A} (e : exn) : result A := inl e.

Definition rbind {A B} (c : result A) (k : A -> result B) : result B :=
  match c with
  | inl e => inl e
  | inr a => k a
  end.

Definition raises {A} (c : result A) : Prop := exists e, c = inl e.

(** ** Python builtins used by the module *)

Module Py.

Definition code (c : ascii) : Z := Z.of_N (N_of_ascii c).

(** [Py_ISSPACE]: tab, line feed, vertical tab, form feed, carriage
    return, space. *)
Definition is_space (c : ascii) : bool :=
  ((9 <=? code c) && (code c <=? 13)) || (code c =? 32).

Definition digit_value (c : ascii) : option Z :=
  if (48 <=? code c) && (code c <=? 57) then Some (code c - 48) else None.

Fixpoint lstrip (s : string) : string :=
  match s with
  | EmptyString => EmptyString
  | String c t => if is_space c then lstrip t else s
  end.

(** The digit loop of [PyLong_FromString] in base 10: digits, with single
    underscores between them; returns the value and the unread rest. *)
Fixpoint scan_digits (prev_underscore : bool) (acc : Z) (s : string)
  : option (Z * string) :=
  match s with
  | EmptyString => if prev_underscore then None else Some (acc, s)
  | String c t =>
      match digit_value c with
      | Some d => scan_digits false (10 * acc + d) t
      | None =>
          if Ascii.eqb c "_" then
            if prev_underscore then None else scan_digits true acc t
          else if prev_underscore then None else Some (acc, s)
      end
  end.

Definition parse_sign (s : string) : Z * string :=
  match s with
  | String "+" t => (1, t)
  | String "-" t => (-1, t)
  | _ => (1, s)
  end.

Definition parse_int (s : string) : option Z :=
  let '(sign, s1) := parse_sign (lstrip s) in
  match s1 with
  | EmptyString => None
  | String c _ =>
      match digit_value c with
      | None => None
      | Some _ =>
          match scan_digits false 0 s1 with
          | None => None
          | Some (v, rest) =>
              match lstrip rest with
              | EmptyString => Some (sign * v)
              | String _ _ => None
              end
          end
      end
  end.

(** [int(s)] for a [str] argument. *)
Definition int (s : string) : result Z :=
  match parse_int s with
  | Some v => Ok v
  | None => Raise (ValueError ("invalid literal for int() with base 10: '" +:+ s +:+ "'"))
  end.

Definition lower_char (c : ascii) : ascii :=
  if (65 <=? code c) && (code c <=? 90)
  then ascii_of_N (N_of_ascii c + 32) else c.

(** [s.lower()] *)
Fixpoint lower (s : string) : string :=
  match s with
  | EmptyString => EmptyString
  | String c t => String (lower_char c) (lower t)
  end.

(** [len(s)] *)
Definition len (s : string) : Z := Z.of_nat (String.length s).

Fixpoint drop (n : nat) (s : string) : string :=
  match n, s with
  | O, _ => s
  | S n', EmptyString => EmptyString
  | S n', String _ t => drop n' t
  end.

Fixpoint take (n : nat) (s : string) : string :=
  match n, s with
  | O, _ => EmptyString
  | S n', EmptyString => EmptyString
  | S n', String c t => String c (take n' t)
  end.

(** [s[a:b]] for [0 <= a <= b], clipped to the string as Python does. *)
Definition slice (s : string) (a b : Z) : string :=
  take (Z.to_nat (b - a)) (drop (Z.to_nat a) s).

(** [s[a:]] for [0 <= a]. *)
Definition slice_from (s : string) (a : Z) : string := drop (Z.to_nat a) s.

(** [s.rfind(ch)]: the index of the last occurrence, or -1.  [i] is the
    index of the head of [s], [found] the last occurrence seen so far. *)
Fixpoint rfind_from (ch : ascii) (i found : Z) (s : string) : Z :=
  match s with
  | EmptyString => found
  | String c t => rfind_from ch (i + 1) (if Ascii.eqb c ch then i else found) t
  end.

Definition rfind (s : string) (ch : ascii) : Z := rfind_from ch 0 (-1) s.

End Py.

(** ** [posixpath] *)

Module Posixpath.

(** [basename(p)]: [i = p.rfind('/') + 1; return p[i:]]. *)
Definition basename (p : string) : string :=
  let i := Py.rfind p "/" + 1 in
  Py.slice_from p i.

End Posixpath.

(** ** [datetime] and [calendar] *)

Module Datetime.

Definition MINYEAR : Z := 1.
Definition MAXYEAR : Z := 9999.

(** [_is_leap(year)] *)
Definition is_leap (year : Z) : bool :=
  (year mod 4 =? 0) && (negb (year mod 100 =? 0) || (year mod 400 =? 0)).

(** [_DAYS_IN_MONTH], without the placeholder at index 0. *)
Definition DAYS_IN_MONTH : list Z := [31; 28; 31; 30; 31; 30; 31; 31; 30; 31; 30; 31].

Definition days_in_month_table (month : Z) : Z :=
  nth (Z.to_nat (month - 1)) DAYS_IN_MONTH 0.

(** [_days_before_year(year)]: days before January 1st of [year]. *)
Definition days_before_year (year : Z) : Z :=
  let y := year - 1 in
  y * 365 + y / 4 - y / 100 + y / 400.

(** [_days_in_month(year, month)] *)
Definition days_in_month (year month : Z) : Z :=
  if (month =? 2) && is_leap year then 29 else days_in_month_table month.

(** [_DAYS_BEFORE_MONTH[month]]: the running sum of [_DAYS_IN_MONTH]. *)
Definition days_before_month_table (month : Z) : Z :=
  fold_right Z.add 0 (firstn (Z.to_nat (month - 1)) DAYS_IN_MONTH).

(** [_days_before_month(year, month)] *)
Definition days_before_month (year month : Z) : Z :=
  days_before_month_table month
  + (if (2 <? month) && is_leap year then 1 else 0).

(** [_ymd2ord(year, month, day)]: the proleptic Gregorian ordinal,
    0001-01-01 being day 1. *)
Definition ymd2ord (year month day : Z) : Z :=
  days_before_year year + days_before_month year month + day.

Record date : Type := { year : Z; month : Z; day : Z }.

(** [date(year=, month=, day=)], with [_check_date_fields]. *)
Definition new (y m d : Z) : result date :=
  if negb ((MINYEAR <=? y) && (y <=? MAXYEAR)) then
    Raise (ValueError "year out of range")
  else if negb ((1 <=? m) && (m <=? 12)) then
    Raise (ValueError "month must be in 1..12")
  else if negb ((1 <=? d) && (d <=? days_in_month y m)) then
    Raise (ValueError "day is out of range for month")
  else Ok {| year := y; month := m; day := d |}.

(** [date.toordinal()] *)
Definition toordinal (d : date) : Z := ymd2ord (year d) (month d) (day d).

End Datetime.

Module Calendar.

(** [calendar.isleap] *)
Definition isleap (year : Z) : bool :=
  (year mod 4 =? 0) && (negb (year mod 100 =? 0) || (year mod 400 =? 0)).

(** [calendar.mdays], without the placeholder at index 0. *)
Definition mdays : list Z := [31; 28; 31; 30; 31; 30; 31; 31; 30; 31; 30; 31].

(** [calendar.monthrange(year, month)[1]]: the number of days of the
    month.  The weekday component is not used by the module. *)
Definition monthrange_ndays (year month : Z) : result Z :=
  if negb ((1 <=? month) && (month <=? 12)) then Raise (IllegalMonthError month)
  else Ok (nth (Z.to_nat (month - 1)) mdays 0
           + (if (month =? 2) && isleap year then 1 else 0)).

End Calendar.

(** ** [numpy] and [numpy.ma] *)

Module Np.

(** A one-dimensional, contiguous array is the list of its elements. *)

(** A two-dimensional array is a view on a flat buffer: element [(r, c)]
    lives at buffer index [offset + r * stride0 + c * stride1]. *)
Record ndarray (A : Type) : Type := {
  buffer : list A;
  shape : Z * Z;
  offset : Z;
  strides : Z * Z
}.
Arguments buffer {A} _.
Arguments shape {A} _.
Arguments offset {A} _.
Arguments strides {A} _.

(** The value of an unsigned 8-bit element ([dtype=">u1"]). *)
Definition u8 (b : byte) : Z := Z.of_N (Byte.to_N b).

(** [np.fromfile(path, dtype=">u1")]: the whole file, one element per
    byte. *)
Definition fromfile (fs : gmap string (list byte)) (path : string)
  : result (list Z) :=
  match fs !! path with
  | Some bytes => Ok (u8 <$> bytes)
  | None => Raise (FileNotFoundError path)
  end.

(** [a.reshape(n0, n1)] of a one-dimensional contiguous array: a C-ordered
    view of the same buffer; the sizes must agree. *)
Definition reshape {A} (a : list A) (n0 n1 : Z) : result (ndarray A) :=
  if Z.of_nat (length a) =? n0 * n1 then
    Ok {| buffer := a; shape := (n0, n1); offset := 0; strides := (n1, 1) |}
  else Raise (ValueError "cannot reshape array into shape").

(** [a.transpose()]: the axes, and with them the strides, are swapped. *)
Definition transpose {A} (a : ndarray A) : ndarray A :=
  {| buffer := buffer a;
     shape := (snd (shape a), fst (shape a));
     offset := offset a;
     strides := (snd (strides a), fst (strides a)) |}.

(** [a[::-1]]: the first axis is walked backwards from its last row. *)
Definition reverse_rows {A} (a : ndarray A) : ndarray A :=
  {| buffer := buffer a;
     shape := shape a;
     offset := offset a + (fst (shape a) - 1) * fst (strides a);
     strides := (- fst (strides a), snd (strides a)) |}.

(** An element-wise operation keeps the geometry of its operand. *)
Definition map {A B} (f : A -> B) (a : ndarray A) : ndarray B :=
  {| buffer := f <$> buffer a;
     shape := shape a;
     offset := offset a;
     strides := strides a |}.

(** The element at row [r], column [c], for indices inside the shape. *)
Definition item {A} (a : ndarray A) (r c : Z) : option A :=
  if (0 <=? r) && (r <? fst (shape a)) && (0 <=? c) && (c <? snd (shape a)) then
    let k := offset a + r * fst (strides a) + c * snd (strides a) in
    if k <? 0 then None else buffer a !! Z.to_nat k
  else None.

(** [np.arange(n)] *)
Definition arange (n : Z) : list Z := Z.of_nat <$> seq 0 (Z.to_nat n).

(** [np.arange(n, dtype=np.uint8)]: the values wrap around modulo 256. *)
Definition arange_u8 (n : Z) : list Z := (fun i => i mod 256) <$> arange n.

(** Conversion of an integer to float64 (exact below 2^53). *)
Definition float_of_Z (z : Z) : float :=
  match z with
  | Z0 => 0%float
  | Zpos _ => PrimFloat.of_uint63 (Uint63.of_Z z)
  | Zneg p => PrimFloat.opp (PrimFloat.of_uint63 (Uint63.of_Z (Zpos p)))
  end.

(** A masked array: the data, the mask and the fill value. *)
Record MaskedArray : Type := {
  data : ndarray Z;
  mask : ndarray bool;
  fill_value : Z
}.

(** The default fill value of [numpy.ma] for integer data. *)
Definition default_fill_value : Z := 999999.

(** [ma.masked_greater(x, value)]: masked where [x > value]. *)
Definition masked_greater (x : ndarray Z) (value : Z) : MaskedArray :=
  {| data := x;
     mask := map (fun d => value <? d) x;
     fill_value := default_fill_value |}.

(** [m.fill_value = v] *)
Definition set_fill_value (m : MaskedArray) (v : Z) : MaskedArray :=
  {| data := data m; mask := mask m; fill_value := v |}.

(** What [m[r, c]] evaluates to: the constant [masked] or the value. *)
Inductive ma_item : Type := Masked | Value (v : Z).

Definition ma_getitem (m : MaskedArray) (r c : Z) : option ma_item :=
  match item (data m) r c, item (mask m) r c with
  | Some d, Some b => Some (if b then Masked else Value d)
  | _, _ => None
  end.

(** [m.filled()[r, c]]: masked cells are replaced by the fill value. *)
Definition filled (m : MaskedArray) (r c : Z) : option Z :=
  match item (data m) r c, item (mask m) r c with
  | Some d, Some b => Some (if b then fill_value m else d)
  | _, _ => None
  end.

End Np.

(** ** Python values and objects *)

(** The values an attribute of a field holds. *)
Inductive pyval : Type :=
| VInt (z : Z)
| VStr (s : string)
| VArray (a : Np.MaskedArray).

(** An object is its instance dictionary [__dict__]. *)
Abbreviation pyobj := (gmap string pyval).

(** A method: it reads and updates the object it is called on, and returns
    or raises.  The object is returned in both cases. *)
Definition M (A : Type) : Type := pyobj -> result A * pyobj.

Definition ret {A} (a : A) : M A := fun self => (inr a, self).
Definition raise {A} (e : exn) : M A := fun self => (inl e, self).
Definition lift {A} (c : result A) : M A := fun self => (c, self).

Definition bind {A B} (c : M A) (k : A -> M B) : M B :=
  fun self =>
    match c self with
    | (inl e, self') => (inl e, self')
    | (inr a, self') => k a self'
    end.

Notation "x <- c ;; k" := (bind c (fun x => k))
  (at level 20, c at level 99, k at level 200, only parsing).
Notation "c ;; k" := (bind c (fun _ => k))
  (at level 100, k at level 200, right associativity, only parsing).

(** [self.key = v] *)
Definition setattr (key : string) (v : pyval) : M unit :=
  fun self => (inr tt, <[key := v]> self).

Module PyVal.

(** [v.lower()]: only [str] has the method. *)
Definition lower (v : pyval) : result string :=
  match v with
  | VStr s => Ok (Py.lower s)
  | _ => Raise (AttributeError "object has no attribute 'lower'")
  end.

(** [v == s] for a string literal [s]. *)
Definition eq_str (v : pyval) (s : string) : bool :=
  match v with
  | VStr s' => String.eqb s' s
  | _ => false
  end.

(** An argument that must be an integer. *)
Definition as_int (v : pyval) : result Z :=
  match v with
  | VInt z => Ok z
  | _ => Raise (TypeError "an integer is required")
  end.

(** An argument that must be a string. *)
Definition as_str (v : pyval) : result string :=
  match v with
  | VStr s => Ok s
  | _ => Raise (TypeError "expected str")
  end.

(** ["{}".format(v)]; the text of an array is not modelled. *)
Definition format (v : pyval) : string :=
  match v with
  | VStr s => s
  | VInt z => pretty z
  | VArray _ => "masked_array(...)"
  end.

End PyVal.

(** ** The parts of iris the module calls

    The cube and the coordinates record what the module puts into them;
    the checks iris itself makes are outside this repository. *)

Module Iris.

Record GeogCS : Type := {
  semi_major_axis : float;
  semi_minor_axis : float
}.

Record DimCoord : Type := {
  dim_points : list float;
  dim_standard_name : string;
  dim_units : string;
  dim_coord_system : GeogCS;
  dim_has_bounds : bool
}.

(** [coord.guess_bounds()] *)
Definition guess_bounds (c : DimCoord) : DimCoord :=
  {| dim_points := dim_points c;
     dim_standard_name := dim_standard_name c;
     dim_units := dim_units c;
     dim_coord_system := dim_coord_system c;
     dim_has_bounds := true |}.

Record AuxCoord : Type := {
  aux_points : Z;
  aux_standard_name : string;
  aux_units : string;
  aux_bounds : list Z
}.

Record Cube : Type := {
  cube_data : pyval;
  cube_name : option string;
  cube_units : option string;
  cube_dim_coords : list (DimCoord * Z);
  cube_aux_coords : list AuxCoord;
  cube_attributes : gmap string string
}.

(** [iris.cube.Cube(data)] *)
Definition new_cube (d : pyval) : Cube :=
  {| cube_data := d; cube_name := None; cube_units := None;
     cube_dim_coords := []; cube_aux_coords := []; cube_attributes := ∅ |}.

(** [cube.rename(name)] *)
Definition rename (c : Cube) (name : string) : Cube :=
  {| cube_data := cube_data c; cube_name := Some name;
     cube_units := cube_units c; cube_dim_coords := cube_dim_coords c;
     cube_aux_coords := cube_aux_coords c;
     cube_attributes := cube_attributes c |}.

(** [cube.units = u] *)
Definition set_units (c : Cube) (u : string) : Cube :=
  {| cube_data := cube_data c; cube_name := cube_name c;
     cube_units := Some u; cube_dim_coords := cube_dim_coords c;
     cube_aux_coords := cube_aux_coords c;
     cube_attributes := cube_attributes c |}.

(** [cube.add_dim_coord(coord, dim)] *)
Definition add_dim_coord (c : Cube) (coord : DimCoord) (dim : Z) : Cube :=
  {| cube_data := cube_data c; cube_name := cube_name c;
     cube_units := cube_units c;
     cube_dim_coords := cube_dim_coords c ++ [(coord, dim)];
     cube_aux_coords := cube_aux_coords c;
     cube_attributes := cube_attributes c |}.

(** [cube.add_aux_coord(coord)] *)
Definition add_aux_coord (c : Cube) (coord : AuxCoord) : Cube :=
  {| cube_data := cube_data c; cube_name := cube_name c;
     cube_units := cube_units c; cube_dim_coords := cube_dim_coords c;
     cube_aux_coords := cube_aux_coords c ++ [coord];
     cube_attributes := cube_attributes c |}.

(** [cube.attributes[key] = value] *)
Definition set_attribute (c : Cube) (key value : string) : Cube :=
  {| cube_data := cube_data c; cube_name := cube_name c;
     cube_units := cube_units c; cube_dim_coords := cube_dim_coords c;
     cube_aux_coords := cube_aux_coords c;
     cube_attributes := <[key := value]> (cube_attributes c) |}.

End Iris.

(** ** [iris.io.plugins.abf] *)

Definition X_SIZE : Z := 4320.
Definition Y_SIZE : Z := 2160.

Definition month_numbers : gmap string Z :=
  list_to_map
    [("jan", 1); ("feb", 2); ("mar", 3); ("apr", 4); ("may", 5); ("jun", 6);
     ("jul", 7); ("aug", 8); ("sep", 9); ("oct", 10); ("nov", 11); ("dec", 12)].

(** [month_numbers[key]] *)
Definition month_numbers_getitem (key : pyval) : result Z :=
  match key with
  | VStr s =>
      match month_numbers !! s with
      | Some m => Ok m
      | None => Raise (KeyError s)
      end
  | _ => Raise (KeyError (PyVal.format key))
  end.

Module ABFField.

(** [ABFField(filename)] *)
Definition __init__ (filename : string) : result pyobj :=
  let basename := Posixpath.basename filename in
  if negb (Py.len basename =? 24) then
    Raise (ValueError ("ABFField expects a filename of 24 characters: " +:+ basename))
  else
    Ok (<["_filename" := VStr filename]> ∅).

(** The [try: return self.__dict__[key]] of [__getattr__]. *)
Definition dict_getitem (key : string) : M pyval :=
  fun self =>
    match self !! key with
    | Some v => (inr v, self)
    | None => (inl (AttributeError ("ABFField has no attribute '" +:+ key +:+ "'")), self)
    end.

(** The transformations [_read] applies to the values of the file. *)
Definition decode (raw : list Z) : result Np.MaskedArray :=
  rbind (Np.reshape raw X_SIZE Y_SIZE) (fun data =>
  let data := Np.transpose data in
  let data := Np.reverse_rows data in
  let data := Np.masked_greater data 100 in
  let data := Np.set_fill_value data 255 in
  Ok data).

Section WithFiles.

Variable fs : gmap string (list byte).

(** [self._read()].  Inside it [self._filename] and [self.month] are
    read with a key other than ["data"], for which attribute access
    is the dictionary lookup. *)
Definition _read : M unit :=
  filename <- dict_getitem "_filename" ;;
  filename <- lift (PyVal.as_str filename) ;;
  let basename := Posixpath.basename filename in
  version <- lift (Py.int (Py.slice basename 9 11)) ;;
  setattr "version" (VInt version) ;;
  year <- lift (Py.int (Py.slice basename 12 16)) ;;
  setattr "year" (VInt year) ;;
  setattr "month" (VStr (Py.slice basename 16 19)) ;;
  setattr "period" (VStr (Py.slice basename 19 20)) ;;
  setattr "format" (VStr (Py.slice basename 21 24)) ;;
  month <- dict_getitem "month" ;;
  month <- lift (month_numbers_getitem month) ;;
  setattr "month" (VInt month) ;;
  filename <- dict_getitem "_filename" ;;
  filename <- lift (PyVal.as_str filename) ;;
  raw <- lift (Np.fromfile fs filename) ;;
  data <- lift (decode raw) ;;
  setattr "data" (VArray data).

(** [self.__getattr__(key)] *)
Definition __getattr__ (key : string) : M pyval :=
  fun self =>
    let need_load :=
      String.eqb key "data" && negb (bool_decide (is_Some (self !! "data"))) in
    ((if need_load then _read else ret tt) ;; dict_getitem key) self.

(** [self.key]: the instance dictionary first, [__getattr__] when the
    key is not in it. *)
Definition getattr (key : string) : M pyval :=
  fun self =>
    match self !! key with
    | Some v => (inr v, self)
    | None => __getattr__ key self
    end.

Definition step : float := (1.0 / 12.0)%float.

(** [np.arange(n) * step + (step / 2) - origin] *)
Definition axis_points (n origin : Z) : list float :=
  (fun i => (Np.float_of_Z i * step + (step / 2) - Np.float_of_Z origin)%float)
    <$> Np.arange n.

Definition llcs : Iris.GeogCS :=
  {| Iris.semi_major_axis := 6378137.0%float;
     Iris.semi_minor_axis := 6356752.31424%float |}.

Definition x_coord : Iris.DimCoord :=
  {| Iris.dim_points := axis_points X_SIZE 180;
     Iris.dim_standard_name := "longitude";
     Iris.dim_units := "degrees";
     Iris.dim_coord_system := llcs;
     Iris.dim_has_bounds := false |}.

Definition y_coord : Iris.DimCoord :=
  {| Iris.dim_points := axis_points Y_SIZE 90;
     Iris.dim_standard_name := "latitude";
     Iris.dim_units := "degrees";
     Iris.dim_coord_system := llcs;
     Iris.dim_has_bounds := false |}.

(** The first and last day of the half month, the [# Time.] branch. *)
Definition period_days : M (Z * Z) :=
  period <- getattr "period" ;;
  if PyVal.eq_str period "a" then ret (1, 15)
  else
    period <- getattr "period" ;;
    if PyVal.eq_str period "b" then
      year <- getattr "year" ;;
      month <- getattr "month" ;;
      year <- lift (PyVal.as_int year) ;;
      month <- lift (PyVal.as_int month) ;;
      ndays <- lift (Calendar.monthrange_ndays year month) ;;
      ret (16, ndays)
    else
      period <- getattr "period" ;;
      raise (TranslationError ("Unknown period: " +:+ PyVal.format period)).

(** [datetime.date(year=self.year, month=self.month, day=day)] *)
Definition date_of (day : Z) : M Datetime.date :=
  year <- getattr "year" ;;
  month <- getattr "month" ;;
  year <- lift (PyVal.as_int year) ;;
  month <- lift (PyVal.as_int month) ;;
  lift (Datetime.new year month day).

(** [self.to_cube()] *)
Definition to_cube : M Iris.Cube :=
  data <- getattr "data" ;;
  let cube := Iris.new_cube data in
  (* Name. *)
  format <- getattr "format" ;;
  lowered <- lift (PyVal.lower format) ;;
  cube <-
    (if String.eqb lowered "abf" then ret (Iris.rename cube "FAPAR")
     else
       format <- getattr "format" ;;
       lowered <- lift (PyVal.lower format) ;;
       if String.eqb lowered "abl" then ret (Iris.rename cube "leaf_area_index")
       else
         format <- getattr "format" ;;
         raise (TranslationError ("Unknown ABF/ABL format: " +:+ PyVal.format format))) ;;
  let cube := Iris.set_units cube "%" in
  (* Grid. *)
  let x_coord := Iris.guess_bounds x_coord in
  let y_coord := Iris.guess_bounds y_coord in
  let cube := Iris.add_dim_coord cube x_coord 1 in
  let cube := Iris.add_dim_coord cube y_coord 0 in
  (* Time. *)
  days <- period_days ;;
  start <- date_of (fst days) ;;
  end_ <- date_of (snd days) ;;
  (* Convert to "days since 0001-01-01". *)
  let start := Datetime.toordinal start - 1 in
  let end_ := Datetime.toordinal end_ - 1 in
  let cube :=
    Iris.add_aux_coord cube
      {| Iris.aux_points := start;
         Iris.aux_standard_name := "time";
         Iris.aux_units := "days since 0001-01-01";
         Iris.aux_bounds := [start; end_] |} in
  (* Attributes. *)
  let cube := Iris.set_attribute cube "source" "Boston University" in
  ret cube.

End WithFiles.

End ABFField.

(** The argument of [load_cubes]: one file specification or a list. *)
Inductive filespecs : Type :=
| OneSpec (filespec : string)
| ManySpecs (specs : list string).

(** One call of the user's callback, as [iris.io.run_callback] receives
    it: the cube, the field and the file name. *)
Definition callback_call : Type := Iris.Cube * pyobj * string.

(** What running the generator [load_cubes] to its end produces: the
    cubes it yielded, in order, the callback calls it made, and the
    exception that ended it, if any. *)
Record generated : Type := {
  yielded : list Iris.Cube;
  calls : list callback_call;
  raised : option exn
}.

Section Loader.

(** The file system and [glob.glob] on it.  A callback may have effects
    of its own: [World] is what they act on, and [run_callback] is
    [iris.io.run_callback] applied to a callback, returning Python's
    [None] as [None]. *)
Variable fs : gmap string (list byte).
Variable glob : string -> list string.
Variables Callback World : Type.
Variable run_callback :
  Callback -> Iris.Cube -> pyobj -> string -> World -> result (option Iris.Cube) * World.

(** The body of the inner loop for one file name: what it yields, if
    anything, and the callback calls it makes. *)
Definition load_file (callback : option Callback) (filename : string) (w : World)
  : result (option Iris.Cube) * list callback_call * World :=
  match ABFField.__init__ filename with
  | inl e => (inl e, [], w)
  | inr field =>
      match ABFField.to_cube fs field with
      | (inl e, _) => (inl e, [], w)
      | (inr cube, field) =>
          match callback with
          | None => (inr (Some cube), [], w)
          | Some cb =>
              let (cube', w') := run_callback cb cube field filename w in
              (cube', [(cube, field, filename)], w')
          end
      end
  end.

(** [for filename in filenames: ...] *)
Fixpoint load_filenames (callback : option Callback) (filenames : list string)
    (w : World) : generated * World :=
  match filenames with
  | [] => ({| yielded := []; calls := []; raised := None |}, w)
  | filename :: rest =>
      match load_file callback filename w with
      | (inl e, log, w') => ({| yielded := []; calls := log; raised := Some e |}, w')
      | (inr out, log, w') =>
          let (g, w'') := load_filenames callback rest w' in
          ({| yielded := match out with Some cube => cube :: yielded g | None => yielded g end;
              calls := log ++ calls g;
              raised := raised g |}, w'')
      end
  end.

(** [for filespec in filespecs: for filename in glob.glob(filespec): ...] *)
Fixpoint load_filespecs (callback : option Callback) (specs : list string)
    (w : World) : generated * World :=
  match specs with
  | [] => ({| yielded := []; calls := []; raised := None |}, w)
  | filespec :: rest =>
      let (g, w') := load_filenames callback (glob filespec) w in
      match raised g with
      | Some _ => (g, w')
      | None =>
          let (g', w'') := load_filespecs callback rest w' in
          ({| yielded := yielded g ++ yielded g';
              calls := calls g ++ calls g';
              raised := raised g' |}, w'')
      end
  end.

(** [if isinstance(filespecs, str): filespecs = [filespecs]] *)
Definition normalize (specs : filespecs) : list string :=
  match specs with
  | OneSpec filespec => [filespec]
  | ManySpecs l => l
  end.

(** [load_cubes(filespecs, callback)], run to its end. *)
Definition load_cubes (specs : filespecs) (callback : option Callback) (w : World)
  : generated * World :=
  load_filespecs callback (normalize specs) w.

(** The files a call of [load_cubes] goes through, in order. *)
Definition matched (specs : filespecs) : list string :=
  concat (glob <$> normalize specs).

(** Decoding one file into a cube: the field decoder, then the cube
    builder. *)
Definition decode_file (filename : string) : result (Iris.Cube * pyobj) :=
  match ABFField.__init__ filename with
  | inl e => inl e
  | inr field =>
      match ABFField.to_cube fs field with
      | (inl e, _) => inl e
      | (inr cube, field) => inr (cube, field)
      end
  end.

(** A run of the callback over files that all decode: for each file, in
    order, the cube and field it was called with and what it returned. *)
Inductive callback_run (cb : Callback)
  : World -> list string -> list callback_call -> list (option Iris.Cube) -> World -> Prop :=
| run_done w : callback_run cb w [] [] [] w
| run_file w filename cube field out w1 rest log outs w2 :
    decode_file filename = inr (cube, field) ->
    run_callback cb cube field filename w = (inr out, w1) ->
    callback_run cb w1 rest log outs w2 ->
    callback_run cb w (filename :: rest) ((cube, field, filename) :: log) (out :: outs) w2.

End Loader.

Arguments load_file fs {Callback World} run_callback.
Arguments load_filenames fs {Callback World} run_callback.
Arguments load_filespecs fs glob {Callback World} run_callback.
Arguments load_cubes fs glob {Callback World} run_callback.
Arguments callback_run fs {Callback World} run_callback.

(** ** Vocabulary of the specification *)

(** The error kinds the specification names, as classes of the exceptions
    the module raises. *)
Definition InvalidFilenameError (e : exn) : Prop :=
  match e with
  | ValueError _ | KeyError _ => True
  | _ => False
  end.

Definition UnknownFormatError (e : exn) : Prop :=
  exists tag, e = TranslationError ("Unknown ABF/ABL format: " +:+ tag).

Definition UnknownPeriodError (e : exn) : Prop :=
  exists period, e = TranslationError ("Unknown period: " +:+ PyVal.format period).

(** The grid the specification describes for the bytes of a file: 2160
    rows by 4320 columns, cell [(r, c)] holding the byte at index
    [c * 2160 + (2159 - r)], masked when that byte is greater than 100,
    with fill value 255. *)
Definition decoded_grid (bytes : list byte) (grid : Np.MaskedArray) : Prop :=
  Np.shape (Np.data grid) = (2160, 4320) /\
  Np.shape (Np.mask grid) = (2160, 4320) /\
  Np.fill_value grid = 255 /\
  forall r c, 0 <= r < 2160 -> 0 <= c < 4320 ->
    exists b,
      bytes !! Z.to_nat (c * 2160 + (2159 - r)) = Some b /\
      Np.item (Np.data grid) r c = Some (Np.u8 b) /\
      Np.item (Np.mask grid) r c = Some (100 <? Np.u8 b) /\
      Np.ma_getitem grid r c =
        Some (if 100 <? Np.u8 b then Np.Masked else Np.Value (Np.u8 b)) /\
      Np.filled grid r c = Some (if 100 <? Np.u8 b then 255 else Np.u8 b).

(** The byte whose value is [z mod 256]. *)
Definition byte_of_Z (z : Z) : byte :=
  match Byte.of_N (Z.to_N (z mod 256)) with
  | Some b => b
  | None => "000"%byte
  end.

(** A file holding the bytes 0, 1, 2, ... modulo 256: what [np.fromfile]
    returns for it is [np.arange(n, dtype=np.uint8)]. *)
Definition arange_file (n : Z) : list byte := byte_of_Z <$> Np.arange n.

(** The filename of a field: what [os.path.basename] and the fixed
    offsets make of it. *)
Definition basename_of (filename : string) : string := Posixpath.basename filename.
Definition version_token (filename : string) : string := Py.slice (basename_of filename) 9 11.
Definition year_token (filename : string) : string := Py.slice (basename_of filename) 12 16.
Definition month_token (filename : string) : string := Py.slice (basename_of filename) 16 19.
Definition period_token (filename : string) : string := Py.slice (basename_of filename) 19 20.
Definition format_token (filename : string) : string := Py.slice (basename_of filename) 21 24.

(** The dictionary of a field once [_read] has parsed the name. *)
Definition parsed (self : pyobj) (filename : string) (v y : Z) : pyobj :=
  <["format" := VStr (format_token filename)]>
    (<["period" := VStr (period_token filename)]>
       (<["month" := VStr (month_token filename)]>
          (<["year" := VInt y]> (<["version" := VInt v]> self)))).

(** The dictionary of a field once [_read] has returned. *)
Definition loaded (self : pyobj) (filename : string) (v y m : Z)
    (grid : Np.MaskedArray) : pyobj :=
  <["data" := VArray grid]> (<["month" := VInt m]> (parsed self filename v y)).

(** A field handle as the constructor leaves it. *)
Definition fresh (filename : string) : pyobj := <["_filename" := VStr filename]> ∅.

(** The scalar time coordinate for an interval of day counts. *)
Definition time_coord (start end_ : Z) : Iris.AuxCoord :=
  {| Iris.aux_points := start;
     Iris.aux_standard_name := "time";
     Iris.aux_units := "days since 0001-01-01";
     Iris.aux_bounds := [start; end_] |}.

(** The cube [to_cube] returns for a grid, a name and an interval. *)
Definition built_cube (d : pyval) (name : string) (start end_ : Z) : Iris.Cube :=
  {| Iris.cube_data := d;
     Iris.cube_name := Some name;
     Iris.cube_units := Some "%";
     Iris.cube_dim_coords :=
       [(Iris.guess_bounds ABFField.x_coord, 1); (Iris.guess_bounds ABFField.y_coord, 0)];
     Iris.cube_aux_coords := [time_coord start end_];
     Iris.cube_attributes := <["source" := "Boston University"]> ∅ |}.

(** The two names of the specification. *)
Definition name_of_tag (tag : string) : option string :=
  if String.eqb (Py.lower tag) "abf" then Some "FAPAR"
  else if String.eqb (Py.lower tag) "abl" then Some "leaf_area_index"
  else None.

(** The first and last day of month of a period. *)
Definition days_of_period (period : string) (year month : Z) : option (Z * Z) :=
  if String.eqb period "a" then Some (1, 15)
  else if String.eqb period "b" then Some (16, Datetime.days_in_month year month)
  else None.

(** "Days since 0001-01-01" of a calendar day: its ordinal minus one. *)
Definition days_since_epoch (year month day : Z) : Z :=
  Datetime.ymd2ord year month day - 1.

(** A field given by its attributes, as the tests of [to_cube] make one:
    [Mock(format=..., period=..., year=..., month=...)], whose [data] is
    a placeholder. *)
Definition mock_field (format period : string) (year month : Z) : pyobj :=
  <["month" := VInt month]>
    (<["year" := VInt year]>
       (<["period" := VStr period]>
          (<["format" := VStr format]> (<["data" := VStr "DATA"]> ∅)))).

(** The calendar day after [(year, month, day)] when [day] is the last
    day of the month: the first of the following month. *)
Definition next_month_first (year month : Z) : Z * Z :=
  if month =? 12 then (year + 1, 1) else (year, month + 1).

(** The five fields of the filename, and the twelve month tokens. *)
Abbreviation metadata_keys := ["version"; "year"; "month"; "period"; "format"].
Abbreviation month_tokens :=
  ["jan"; "feb"; "mar"; "apr"; "may"; "jun"; "jul"; "aug"; "sep"; "oct"; "nov"; "dec"].

(** The number of results a callback suppressed. *)
Fixpoint suppressed (outs : list (option Iris.Cube)) : nat :=
  match outs with
  | [] => 0
  | None :: rest => S (suppressed rest)
  | Some _ :: rest => suppressed rest
  end.

(** The callback of the loader test: [run_callback] returns [None] on its
    first call and the cube it was given, renamed, afterwards.  Its world
    is the number of calls made so far. *)
Definition counting_callback (_ : unit) (cube : Iris.Cube) (_ : pyobj) (_ : string)
    (calls_so_far : nat) : result (option Iris.Cube) * nat :=
  (inr (match calls_so_far with
        | O => None
        | S _ => Some (Iris.rename cube "CALLBACK_CUBE")
        end), S calls_so_far).

(** The exact value of a finite float64, as the fraction [n / 2^k]. *)
Definition float_exact (f : float) : option (Z * Z) :=
  match Prim2SF f with
  | S754_zero _ => Some (0, 0)
  | S754_finite s m e =>
      let n := if s then Z.neg m else Z.pos m in
      if 0 <=? e then Some (n * 2 ^ e, 0) else Some (n, - e)
  | _ => None
  end.

(** [close_to f q tol]: the float [f] is finite and within [2^-tol] of
    the rational [q / 24]. *)
Definition close_to (f : float) (q tol : Z) : bool :=
  match float_exact f with
  | Some (n, k) => Z.abs (24 * n * 2 ^ tol - q * 2 ^ (k + tol)) <=? 24 * 2 ^ k
  | None => false
  end.

(** The point of index [i] on an axis that starts at [- origin]. *)
Definition axis_point (origin i : Z) : float :=
  (Np.float_of_Z i * ABFField.step + (ABFField.step / 2) - Np.float_of_Z origin)%float.

(** Every float of the list is below every later one. *)
Fixpoint pairwise_increasing (l : list float) : bool :=
  match l with
  | [] => true
  | a :: rest => forallb (PrimFloat.ltb a) rest && pairwise_increasing rest
  end.

(** The difference of two neighbouring points, computed in float64, is
    within [2^-44] of the step. *)
Definition spacing_ok (a b : float) : bool :=
  PrimFloat.leb (PrimFloat.abs (b - a - ABFField.step)%float) 0x1p-44%float.

(** Whether the character [ch] occurs in [s]. *)
Fixpoint occurs (ch : ascii) (s : string) : bool :=
  match s with
  | EmptyString => false
  | String c t => Ascii.eqb c ch || occurs ch t
  end.

(** The file names of the convention: nine characters, the version in two
    digits, a separator, the year in four digits, the month token, the
    period, a separator and the format tag, as in
    ["AVHRRBUVI01.1985feba.abl"]. *)
Definition digit_char (d : Z) : ascii := ascii_of_N (Z.to_N (48 + d)).

Definition two_digits (n : Z) : string :=
  String (digit_char (n / 10)) (String (digit_char (n mod 10)) EmptyString).

Definition four_digits (n : Z) : string :=
  String (digit_char (n / 1000))
    (String (digit_char (n / 100 mod 10)) (two_digits (n mod 100))).

Definition abf_basename (prefix : string) (version : Z) (sep1 : ascii) (year : Z)
    (month : string) (period sep2 : ascii) (tag : string) : string :=
  prefix +:+ two_digits version
  +:+ String sep1 (four_digits year +:+ month +:+ String period (String sep2 tag)).

(** * Properties *)

(** ** The monad *)

Ltac run_M :=
  cbv beta iota zeta delta
    [bind ret raise lift setattr ABFField.dict_getitem rbind Ok Raise fst snd].

(** ** numpy *)

Lemma u8_byte_of_Z (z : Z) : Np.u8 (byte_of_Z z) = z mod 256.
Proof.
  unfold Np.u8, byte_of_Z.
  assert (Hr : 0 <= z mod 256 < 256) by (apply Z.mod_pos_bound; lia).
  destruct (Byte.of_N (Z.to_N (z mod 256))) as [b|] eqn:Hb.
  - apply Byte.to_of_N in Hb. rewrite Hb. lia.
  - apply Byte.of_N_None_iff in Hb. lia.
Qed.

Lemma arange_length (n : Z) : 0 <= n -> Z.of_nat (length (Np.arange n)) = n.
Proof.
  intros Hn. unfold Np.arange. rewrite length_fmap, length_seq. lia.
Qed.

Lemma arange_lookup (n i : Z) :
  0 <= i < n -> Np.arange n !! Z.to_nat i = Some i.
Proof.
  intros Hi. unfold Np.arange.
  rewrite list_lookup_fmap, lookup_seq_lt by lia.
  cbn [fmap option_fmap option_map Nat.add]. f_equal. lia.
Qed.

Lemma arange_file_length (n : Z) :
  0 <= n -> Z.of_nat (length (arange_file n)) = n.
Proof.
  intros Hn. unfold arange_file. rewrite length_fmap. by apply arange_length.
Qed.

Lemma arange_file_lookup (n i : Z) :
  0 <= i < n -> arange_file n !! Z.to_nat i = Some (byte_of_Z i).
Proof.
  intros Hi. unfold arange_file.
  rewrite list_lookup_fmap, arange_lookup by lia. reflexivity.
Qed.

Lemma fromfile_arange_file (n : Z) (path : string) :
  Np.fromfile {[ path := arange_file n ]} path = Ok (Np.arange_u8 n).
Proof.
  unfold Np.fromfile. rewrite lookup_singleton_eq. f_equal.
  unfold arange_file, Np.arange_u8. rewrite <- list_fmap_compose.
  apply list_fmap_ext. intros _ z _. apply u8_byte_of_Z.
Qed.

Lemma decode_shape_mismatch (raw : list Z) :
  Z.of_nat (length raw) <> X_SIZE * Y_SIZE ->
  exists msg, ABFField.decode raw = Raise (ValueError msg).
Proof.
  intros Hne. unfold ABFField.decode, Np.reshape.
  destruct (Z.eqb_spec (Z.of_nat (length raw)) (X_SIZE * Y_SIZE)) as [Heq|_];
    [contradiction|].
  eexists. reflexivity.
Qed.

Lemma decode_ok (bytes : list byte) :
  Z.of_nat (length bytes) = X_SIZE * Y_SIZE ->
  exists grid, ABFField.decode (Np.u8 <$> bytes) = Ok grid /\ decoded_grid bytes grid.
Proof.
  intros Hlen. unfold ABFField.decode, Np.reshape.
  rewrite length_fmap.
  destruct (Z.eqb_spec (Z.of_nat (length bytes)) (X_SIZE * Y_SIZE)) as [_|Hne];
    [|contradiction].
  eexists. split; [reflexivity|].
  unfold X_SIZE, Y_SIZE in *.
  repeat split.
  intros r c Hr Hc.
  assert (Hk : (Z.to_nat (c * 2160 + (2159 - r)) < length bytes)%nat) by lia.
  destruct (lookup_lt_is_Some_2 _ _ Hk) as [b Hb].
  exists b. split; [exact Hb|].
  assert (Hd : Np.item
    (Np.reverse_rows (Np.transpose
       {| Np.buffer := Np.u8 <$> bytes; Np.shape := (4320, 2160);
          Np.offset := 0; Np.strides := (2160, 1) |})) r c = Some (Np.u8 b)).
  { unfold Np.item, Np.reverse_rows, Np.transpose.
    cbn [Np.shape Np.strides Np.offset Np.buffer fst snd].
    replace ((0 <=? r) && (r <? 2160) && (0 <=? c) && (c <? 4320)) with true
      by (symmetry; repeat (apply andb_true_intro; split); lia).
    replace (0 + (2160 - 1) * 1 + r * - (1) + c * 2160) with (c * 2160 + (2159 - r)) by lia.
    destruct (Z.ltb_spec (c * 2160 + (2159 - r)) 0); [lia|].
    rewrite list_lookup_fmap, Hb. reflexivity. }
  assert (Hm : Np.item
    (Np.map (fun d => 100 <? d) (Np.reverse_rows (Np.transpose
       {| Np.buffer := Np.u8 <$> bytes; Np.shape := (4320, 2160);
          Np.offset := 0; Np.strides := (2160, 1) |}))) r c = Some (100 <? Np.u8 b)).
  { unfold Np.item, Np.map, Np.reverse_rows, Np.transpose.
    cbn [Np.shape Np.strides Np.offset Np.buffer fst snd].
    replace ((0 <=? r) && (r <? 2160) && (0 <=? c) && (c <? 4320)) with true
      by (symmetry; repeat (apply andb_true_intro; split); lia).
    replace (0 + (2160 - 1) * 1 + r * - (1) + c * 2160) with (c * 2160 + (2159 - r)) by lia.
    destruct (Z.ltb_spec (c * 2160 + (2159 - r)) 0); [lia|].
    rewrite !list_lookup_fmap, Hb. reflexivity. }
  unfold Np.ma_getitem, Np.filled, Np.set_fill_value, Np.masked_greater.
  cbn [Np.data Np.mask Np.fill_value].
  rewrite Hd, Hm. repeat split.
Qed.

(** ** [_read] *)

Ltac read_start Hfn :=
  unfold ABFField._read; run_M; rewrite Hfn; run_M;
  cbv beta iota delta [PyVal.as_str]; run_M;
  match goal with
  | |- context [Posixpath.basename ?f] =>
      fold (basename_of f);
      fold (version_token f) (year_token f) (month_token f)
           (period_token f) (format_token f)
  end.

Ltac read_month Hm :=
  rewrite lookup_insert_ne by done; rewrite lookup_insert_ne by done;
  rewrite lookup_insert_eq; unfold month_numbers_getitem; rewrite Hm; run_M.

Section Read.

Variable fs : gmap string (list byte).
Variable self : pyobj.
Variable filename : string.
Hypothesis Hfn : self !! "_filename" = Some (VStr filename).

Lemma read_version_fails e :
  Py.int (version_token filename) = inl e ->
  ABFField._read fs self = (inl e, self).
Proof. intros Hv. read_start Hfn. rewrite Hv. reflexivity. Qed.

Lemma read_year_fails v e :
  Py.int (version_token filename) = inr v ->
  Py.int (year_token filename) = inl e ->
  ABFField._read fs self = (inl e, <["version" := VInt v]> self).
Proof. intros Hv Hy. read_start Hfn. rewrite Hv, Hy. reflexivity. Qed.

Lemma read_month_fails v y :
  Py.int (version_token filename) = inr v ->
  Py.int (year_token filename) = inr y ->
  month_numbers !! month_token filename = None ->
  ABFField._read fs self
  = (inl (KeyError (month_token filename)), parsed self filename v y).
Proof.
  intros Hv Hy Hm. read_start Hfn. rewrite Hv, Hy. run_M.
  read_month Hm. reflexivity.
Qed.

Lemma read_no_file v y m :
  Py.int (version_token filename) = inr v ->
  Py.int (year_token filename) = inr y ->
  month_numbers !! month_token filename = Some m ->
  fs !! filename = None ->
  ABFField._read fs self
  = (inl (FileNotFoundError filename),
     <["month" := VInt m]> (parsed self filename v y)).
Proof.
  intros Hv Hy Hm Hfile. read_start Hfn. rewrite Hv, Hy. run_M.
  read_month Hm.
  do 6 (rewrite lookup_insert_ne by done). rewrite Hfn. run_M.
  unfold Np.fromfile. rewrite Hfile. reflexivity.
Qed.

Lemma read_size_mismatch v y m bytes :
  Py.int (version_token filename) = inr v ->
  Py.int (year_token filename) = inr y ->
  month_numbers !! month_token filename = Some m ->
  fs !! filename = Some bytes ->
  Z.of_nat (length bytes) <> X_SIZE * Y_SIZE ->
  exists msg,
    ABFField._read fs self
    = (inl (ValueError msg), <["month" := VInt m]> (parsed self filename v y)).
Proof.
  intros Hv Hy Hm Hfile Hlen. read_start Hfn. rewrite Hv, Hy. run_M.
  read_month Hm.
  do 6 (rewrite lookup_insert_ne by done). rewrite Hfn. run_M.
  unfold Np.fromfile. rewrite Hfile. run_M.
  destruct (decode_shape_mismatch (Np.u8 <$> bytes)) as [msg Hmsg].
  { by rewrite length_fmap. }
  exists msg. rewrite Hmsg. reflexivity.
Qed.

Lemma read_ok v y m bytes :
  Py.int (version_token filename) = inr v ->
  Py.int (year_token filename) = inr y ->
  month_numbers !! month_token filename = Some m ->
  fs !! filename = Some bytes ->
  Z.of_nat (length bytes) = X_SIZE * Y_SIZE ->
  exists grid,
    decoded_grid bytes grid /\
    ABFField._read fs self = (inr tt, loaded self filename v y m grid).
Proof.
  intros Hv Hy Hm Hfile Hlen.
  destruct (decode_ok bytes Hlen) as (grid & Hdec & Hgrid).
  exists grid. split; [exact Hgrid|].
  read_start Hfn. rewrite Hv, Hy. run_M.
  read_month Hm.
  do 6 (rewrite lookup_insert_ne by done). rewrite Hfn. run_M.
  unfold Np.fromfile. rewrite Hfile. run_M. rewrite Hdec. reflexivity.
Qed.

End Read.

Lemma parsed_lookup (self : pyobj) filename v y :
  parsed self filename v y !! "version" = Some (VInt v) /\
  parsed self filename v y !! "year" = Some (VInt y) /\
  parsed self filename v y !! "month" = Some (VStr (month_token filename)) /\
  parsed self filename v y !! "period" = Some (VStr (period_token filename)) /\
  parsed self filename v y !! "format" = Some (VStr (format_token filename)) /\
  parsed self filename v y !! "data" = self !! "data" /\
  parsed self filename v y !! "_filename" = self !! "_filename".
Proof. unfold parsed. repeat split; by simplify_map_eq. Qed.

Lemma loaded_lookup (self : pyobj) filename v y m grid :
  loaded self filename v y m grid !! "version" = Some (VInt v) /\
  loaded self filename v y m grid !! "year" = Some (VInt y) /\
  loaded self filename v y m grid !! "month" = Some (VInt m) /\
  loaded self filename v y m grid !! "period" = Some (VStr (period_token filename)) /\
  loaded self filename v y m grid !! "format" = Some (VStr (format_token filename)) /\
  loaded self filename v y m grid !! "data" = Some (VArray grid) /\
  loaded self filename v y m grid !! "_filename" = self !! "_filename".
Proof. unfold loaded, parsed. repeat split; by simplify_map_eq. Qed.

(** What [_read] did when it returned, and that it leaves no grid behind
    when it raised. *)
Lemma read_inv fs (self self' : pyobj) r :
  ABFField._read fs self = (r, self') ->
  match r with
  | inr _ =>
      exists filename v y m bytes grid,
        self !! "_filename" = Some (VStr filename) /\
        Py.int (version_token filename) = inr v /\
        Py.int (year_token filename) = inr y /\
        month_numbers !! month_token filename = Some m /\
        fs !! filename = Some bytes /\
        Z.of_nat (length bytes) = X_SIZE * Y_SIZE /\
        decoded_grid bytes grid /\
        self' = loaded self filename v y m grid
  | inl _ => self' !! "data" = self !! "data"
  end.
Proof.
  intros Hread.
  destruct (self !! "_filename") as [[z|filename|a]|] eqn:Hfn;
    try (unfold ABFField._read in Hread; revert Hread; run_M; rewrite Hfn;
         intros [= <- <-]; reflexivity).
  destruct (Py.int (version_token filename)) as [e|v] eqn:Hv.
  { rewrite (read_version_fails fs self filename Hfn e Hv) in Hread.
    by injection Hread as <- <-. }
  destruct (Py.int (year_token filename)) as [e|y] eqn:Hy.
  { rewrite (read_year_fails fs self filename Hfn v e Hv Hy) in Hread.
    injection Hread as <- <-. by simplify_map_eq. }
  destruct (month_numbers !! month_token filename) as [m|] eqn:Hm; cycle 1.
  { rewrite (read_month_fails fs self filename Hfn v y Hv Hy Hm) in Hread.
    injection Hread as <- <-. apply parsed_lookup. }
  destruct (fs !! filename) as [bytes|] eqn:Hfile; cycle 1.
  { rewrite (read_no_file fs self filename Hfn v y m Hv Hy Hm Hfile) in Hread.
    injection Hread as <- <-. rewrite lookup_insert_ne by done. apply parsed_lookup. }
  destruct (Z.eq_dec (Z.of_nat (length bytes)) (X_SIZE * Y_SIZE)) as [Hlen|Hlen].
  - destruct (read_ok fs self filename Hfn v y m bytes Hv Hy Hm Hfile Hlen)
      as (grid & Hgrid & Hok).
    rewrite Hok in Hread. injection Hread as <- <-.
    exists filename, v, y, m, bytes, grid. repeat (split; [done|]). done.
  - destruct (read_size_mismatch fs self filename Hfn v y m bytes Hv Hy Hm Hfile Hlen)
      as (msg & Hbad).
    rewrite Hbad in Hread. injection Hread as <- <-.
    rewrite lookup_insert_ne by done. apply parsed_lookup.
Qed.

(** ** Attribute access *)

Lemma getattr_present fs (self : pyobj) key v :
  self !! key = Some v -> ABFField.getattr fs key self = (inr v, self).
Proof. intros H. unfold ABFField.getattr. by rewrite H. Qed.

Lemma getattr_absent fs (self : pyobj) key :
  key <> "data" -> self !! key = None ->
  ABFField.getattr fs key self
  = (inl (AttributeError ("ABFField has no attribute '" +:+ key +:+ "'")), self).
Proof.
  intros Hkey H. unfold ABFField.getattr, ABFField.__getattr__. rewrite H.
  destruct (String.eqb_spec key "data") as [->|_]; [done|].
  cbn [andb]. run_M. by rewrite H.
Qed.

Lemma getattr_data_absent fs (self : pyobj) :
  self !! "data" = None ->
  ABFField.getattr fs "data" self
  = (ABFField._read fs ;; ABFField.dict_getitem "data") self.
Proof.
  intros H. unfold ABFField.getattr, ABFField.__getattr__. rewrite H.
  rewrite bool_decide_eq_false_2 by (intros [? ?]; done). reflexivity.
Qed.

(** A successful access to the grid leaves it in the dictionary, and a
    failed one leaves the dictionary without one if it had none. *)
Lemma getattr_data_inv fs (self self' : pyobj) r :
  ABFField.getattr fs "data" self = (r, self') ->
  match r with
  | inr d => self' !! "data" = Some d
  | inl _ => self' !! "data" = None /\ self !! "data" = None
  end.
Proof.
  intros Hget. destruct (self !! "data") as [d|] eqn:Hd.
  - rewrite (getattr_present _ _ _ _ Hd) in Hget. by injection Hget as <- <-.
  - rewrite (getattr_data_absent _ _ Hd) in Hget. revert Hget. run_M.
    destruct (ABFField._read fs self) as [[e|[]] s1] eqn:Hread.
    + intros [= <- <-]. apply read_inv in Hread. by rewrite Hread.
    + destruct (s1 !! "data") as [d|] eqn:Hd1; intros [= <- <-]; done.
Qed.

Lemma attr_loaded fs (self : pyobj) key :
  key <> "data" ->
  ABFField.getattr fs key self
  = (match self !! key with
     | Some v => inr v
     | None => inl (AttributeError ("ABFField has no attribute '" +:+ key +:+ "'"))
     end, self).
Proof.
  intros Hkey. destruct (self !! key) as [v|] eqn:H.
  - by apply getattr_present.
  - by apply getattr_absent.
Qed.

Lemma date_new_inv y m d dt :
  Datetime.new y m d = inr dt ->
  dt = {| Datetime.year := y; Datetime.month := m; Datetime.day := d |} /\
  1 <= y <= 9999 /\ 1 <= m <= 12 /\ 1 <= d <= Datetime.days_in_month y m.
Proof.
  unfold Datetime.new, Datetime.MINYEAR, Datetime.MAXYEAR, Raise, Ok.
  destruct (Z.leb_spec 1 y), (Z.leb_spec y 9999); cbn [andb negb]; try done.
  destruct (Z.leb_spec 1 m), (Z.leb_spec m 12); cbn [andb negb]; try done.
  destruct (Z.leb_spec 1 d), (Z.leb_spec d (Datetime.days_in_month y m));
    cbn [andb negb]; try done.
  intros [= <-]. repeat split; lia.
Qed.

Lemma monthrange_days_in_month y m n :
  Calendar.monthrange_ndays y m = inr n ->
  1 <= m <= 12 /\ n = Datetime.days_in_month y m /\ 28 <= n <= 31.
Proof.
  unfold Calendar.monthrange_ndays, Raise, Ok.
  destruct (Z.leb_spec 1 m), (Z.leb_spec m 12); cbn [andb negb]; try done.
  intros [= <-].
  assert (Hm : 1 <= m <= 12) by lia. split; [lia|].
  unfold Datetime.days_in_month, Datetime.days_in_month_table, Calendar.isleap, Datetime.is_leap.
  assert (Hcases : m = 1 \/ m = 2 \/ m = 3 \/ m = 4 \/ m = 5 \/ m = 6 \/ m = 7 \/ m = 8 \/ m = 9 \/ m = 10 \/ m = 11 \/ m = 12) by lia.
  generalize ((y mod 4 =? 0) && (negb (y mod 100 =? 0) || (y mod 400 =? 0))).
  intros leap.
  destruct Hcases as [->|[->|[->|[->|[->|[->|[->|[->|[->|[->|[->| ->]]]]]]]]]]];
    destruct leap; (split; [reflexivity|]);
    match goal with
    | |- 28 <= ?e <= 31 => let v := eval vm_compute in e in change e with v
    end; lia.
Qed.

Ltac cube_step :=
  first
    [ rewrite attr_loaded by done
    | progress run_M
    | progress cbv beta iota delta [PyVal.lower PyVal.as_int]
    | match goal with
      | |- context [match ?x !! ?k with _ => _ end] =>
          destruct (x !! k) as [[?|?|?]|] eqn:?
      | |- context [if ?b then _ else _] => destruct b eqn:?
      | |- context [match Calendar.monthrange_ndays ?y ?m with _ => _ end] =>
          destruct (Calendar.monthrange_ndays y m) eqn:?
      | |- context [match Datetime.new ?y ?m ?d with _ => _ end] =>
          destruct (Datetime.new y m d) eqn:?
      end ].

Lemma to_cube_loaded_inv fs (s self' : pyobj) d cube :
  s !! "data" = Some d ->
  ABFField.to_cube fs s = (inr cube, self') ->
  self' = s /\
  exists tag p y m,
    s !! "format" = Some (VStr tag) /\
    s !! "period" = Some (VStr p) /\
    s !! "year" = Some (VInt y) /\
    s !! "month" = Some (VInt m) /\
    1 <= y <= 9999 /\ 1 <= m <= 12 /\
    exists name first last,
      name_of_tag tag = Some name /\
      days_of_period p y m = Some (first, last) /\
      cube = built_cube d name (days_since_epoch y m first) (days_since_epoch y m last).
Proof.
  intros Hd. unfold ABFField.to_cube, ABFField.period_days, ABFField.date_of.
  run_M. rewrite (getattr_present _ _ _ _ Hd). run_M.
  repeat cube_step; try (intros [=]; fail).
  all: intros [= <- <-]; split; [reflexivity|].
  all: simplify_eq; cbn [PyVal.eq_str] in *; try discriminate.
  all: repeat match goal with
         | H : Datetime.new _ _ _ = inr _ |- _ =>
             apply date_new_inv in H; destruct H as (-> & ? & ? & ?)
         | H : Calendar.monthrange_ndays _ _ = inr _ |- _ =>
             apply monthrange_days_in_month in H; destruct H as (? & -> & ?)
         end.
  all: do 4 eexists; repeat (split; [reflexivity || eassumption|]).
  all: do 3 eexists; unfold name_of_tag, days_of_period;
    repeat match goal with H : (_ =? _)%string = _ |- _ => rewrite H; clear H end;
    repeat (split; [reflexivity|]); reflexivity.
Qed.

Lemma date_new_ok y m d :
  1 <= y <= 9999 -> 1 <= m <= 12 -> 1 <= d <= Datetime.days_in_month y m ->
  Datetime.new y m d
  = inr {| Datetime.year := y; Datetime.month := m; Datetime.day := d |}.
Proof.
  intros Hy Hm Hd.
  unfold Datetime.new, Datetime.MINYEAR, Datetime.MAXYEAR, Raise, Ok.
  destruct (Z.leb_spec 1 y), (Z.leb_spec y 9999); try lia.
  destruct (Z.leb_spec 1 m), (Z.leb_spec m 12); try lia.
  destruct (Z.leb_spec 1 d), (Z.leb_spec d (Datetime.days_in_month y m)); try lia.
  reflexivity.
Qed.

Lemma monthrange_ok y m :
  1 <= m <= 12 ->
  Calendar.monthrange_ndays y m = inr (Datetime.days_in_month y m) /\
  28 <= Datetime.days_in_month y m <= 31.
Proof.
  intros Hm.
  destruct (Calendar.monthrange_ndays y m) as [e|n] eqn:Hn.
  - revert Hn. unfold Calendar.monthrange_ndays, Raise, Ok.
    destruct (Z.leb_spec 1 m), (Z.leb_spec m 12); try lia. done.
  - apply monthrange_days_in_month in Hn. destruct Hn as (_ & -> & ?). done.
Qed.

Ltac cube_fwd :=
  repeat first
    [ rewrite attr_loaded by done
    | match goal with
      | H : ?x !! ?k = Some _ |- context [?x !! ?k] => rewrite H
      | H : (?a =? ?b)%string = _ |- context [(?a =? ?b)%string] => rewrite H
      | H : PyVal.eq_str ?a ?b = _ |- context [PyVal.eq_str ?a ?b] => rewrite H
      | H : Calendar.monthrange_ndays ?a ?b = _
        |- context [Calendar.monthrange_ndays ?a ?b] => rewrite H
      end
    | progress run_M
    | progress cbn [PyVal.eq_str]
    | progress cbv beta iota delta [PyVal.lower PyVal.as_int] ].

Lemma to_cube_loaded_ok fs (s : pyobj) d tag p y m name first last :
  s !! "data" = Some d ->
  s !! "format" = Some (VStr tag) ->
  s !! "period" = Some (VStr p) ->
  s !! "year" = Some (VInt y) ->
  s !! "month" = Some (VInt m) ->
  name_of_tag tag = Some name ->
  days_of_period p y m = Some (first, last) ->
  1 <= y <= 9999 -> 1 <= m <= 12 ->
  ABFField.to_cube fs s
  = (inr (built_cube d name (days_since_epoch y m first) (days_since_epoch y m last)), s).
Proof.
  intros Hd Hf Hp Hy Hm Hname Hdays Hyr Hmr.
  destruct (monthrange_ok y m Hmr) as [Hmonthrange Hdim].
  unfold name_of_tag in Hname. unfold days_of_period in Hdays.
  unfold ABFField.to_cube, ABFField.period_days, ABFField.date_of.
  run_M. rewrite (getattr_present _ _ _ _ Hd). run_M.
  destruct (Py.lower tag =? "abf")%string eqn:Habf;
    [|destruct (Py.lower tag =? "abl")%string eqn:Habl; [|done]];
    (destruct (p =? "a")%string eqn:Ha;
     [|destruct (p =? "b")%string eqn:Hb; [|done]]);
    injection Hname as <-; injection Hdays as <- <-;
    cube_fwd; rewrite !date_new_ok by lia; reflexivity.
Qed.

Lemma to_cube_loaded_bad_format fs (s : pyobj) d tag :
  s !! "data" = Some d ->
  s !! "format" = Some (VStr tag) ->
  name_of_tag tag = None ->
  ABFField.to_cube fs s
  = (inl (TranslationError ("Unknown ABF/ABL format: " +:+ tag)), s).
Proof.
  intros Hd Hf Hname. unfold name_of_tag in Hname.
  unfold ABFField.to_cube. run_M. rewrite (getattr_present _ _ _ _ Hd). run_M.
  destruct (Py.lower tag =? "abf")%string eqn:Habf; [done|].
  destruct (Py.lower tag =? "abl")%string eqn:Habl; [done|].
  cube_fwd. reflexivity.
Qed.

Lemma to_cube_loaded_bad_period fs (s : pyobj) d tag name period :
  s !! "data" = Some d ->
  s !! "format" = Some (VStr tag) ->
  name_of_tag tag = Some name ->
  s !! "period" = Some period ->
  PyVal.eq_str period "a" = false ->
  PyVal.eq_str period "b" = false ->
  ABFField.to_cube fs s
  = (inl (TranslationError ("Unknown period: " +:+ PyVal.format period)), s).
Proof.
  intros Hd Hf Hname Hp Ha Hb. unfold name_of_tag in Hname.
  unfold ABFField.to_cube, ABFField.period_days. run_M.
  rewrite (getattr_present _ _ _ _ Hd). run_M.
  destruct (Py.lower tag =? "abf")%string eqn:Habf;
    [|destruct (Py.lower tag =? "abl")%string eqn:Habl; [|done]];
    cube_fwd; reflexivity.
Qed.

(** [to_cube] first makes sure the grid is loaded, and then works on the
    loaded field. *)
Lemma to_cube_load fs (self : pyobj) :
  ABFField.to_cube fs self
  = match ABFField.getattr fs "data" self with
    | (inl e, s) => (inl e, s)
    | (inr _, s) => ABFField.to_cube fs s
    end.
Proof.
  destruct (ABFField.getattr fs "data" self) as [[e|d] s] eqn:Hget.
  - unfold ABFField.to_cube. run_M. by rewrite Hget.
  - pose proof (getattr_data_inv _ _ _ _ Hget) as Hd. cbn in Hd.
    unfold ABFField.to_cube. run_M.
    rewrite Hget, (getattr_present _ _ _ _ Hd). reflexivity.
Qed.

(** ** The first access to the grid *)

Lemma getattr_data_ok fs (self : pyobj) filename v y m bytes :
  self !! "data" = None ->
  self !! "_filename" = Some (VStr filename) ->
  Py.int (version_token filename) = inr v ->
  Py.int (year_token filename) = inr y ->
  month_numbers !! month_token filename = Some m ->
  fs !! filename = Some bytes ->
  Z.of_nat (length bytes) = X_SIZE * Y_SIZE ->
  exists grid,
    decoded_grid bytes grid /\
    ABFField._read fs self = (inr tt, loaded self filename v y m grid) /\
    ABFField.getattr fs "data" self
    = (inr (VArray grid), loaded self filename v y m grid).
Proof.
  intros Hd Hfn Hv Hy Hm Hfile Hlen.
  destruct (read_ok fs self filename Hfn v y m bytes Hv Hy Hm Hfile Hlen)
    as (grid & Hgrid & Hread).
  exists grid. repeat (split; [done|]).
  rewrite (getattr_data_absent _ _ Hd). run_M. rewrite Hread.
  destruct (loaded_lookup self filename v y m grid) as (_ & _ & _ & _ & _ & -> & _).
  reflexivity.
Qed.

Lemma getattr_data_load_inv fs (self self' : pyobj) d :
  self !! "data" = None ->
  ABFField.getattr fs "data" self = (inr d, self') ->
  exists filename v y m bytes grid,
    self !! "_filename" = Some (VStr filename) /\
    Py.int (version_token filename) = inr v /\
    Py.int (year_token filename) = inr y /\
    month_numbers !! month_token filename = Some m /\
    fs !! filename = Some bytes /\
    Z.of_nat (length bytes) = X_SIZE * Y_SIZE /\
    decoded_grid bytes grid /\
    self' = loaded self filename v y m grid /\
    d = VArray grid.
Proof.
  intros Hd. rewrite (getattr_data_absent _ _ Hd). run_M.
  destruct (ABFField._read fs self) as [[e|[]] s1] eqn:Hread; [done|].
  apply read_inv in Hread.
  destruct Hread as (filename & v & y & m & bytes & grid & ? & ? & ? & ? & ? & ? & ? & ->).
  destruct (loaded_lookup self filename v y m grid) as (_ & _ & _ & _ & _ & -> & _).
  intros [= <- <-]. exists filename, v, y, m, bytes, grid.
  repeat (split; [done|]). done.
Qed.

Lemma fresh_lookup (filename key : string) :
  fresh filename !! key = if decide (key = "_filename") then Some (VStr filename) else None.
Proof.
  unfold fresh. case_decide as Hk.
  - subst. apply lookup_insert_eq.
  - rewrite lookup_insert_ne by done. apply lookup_empty.
Qed.

Lemma init_ok (filename : string) :
  Py.len (basename_of filename) = 24 ->
  ABFField.__init__ filename = inr (fresh filename).
Proof.
  intros Hlen. unfold ABFField.__init__. fold (basename_of filename).
  rewrite Hlen. reflexivity.
Qed.

Lemma init_fails (filename : string) :
  Py.len (basename_of filename) <> 24 ->
  ABFField.__init__ filename
  = inl (ValueError ("ABFField expects a filename of 24 characters: "
                     +:+ basename_of filename)).
Proof.
  intros Hlen. unfold ABFField.__init__. fold (basename_of filename).
  destruct (Z.eqb_spec (Py.len (basename_of filename)) 24); [done|reflexivity].
Qed.

Lemma to_cube_inv fs (self self' : pyobj) cube :
  ABFField.to_cube fs self = (inr cube, self') ->
  exists d tag p y m,
    ABFField.getattr fs "data" self = (inr d, self') /\
    self' !! "data" = Some d /\
    self' !! "format" = Some (VStr tag) /\
    self' !! "period" = Some (VStr p) /\
    self' !! "year" = Some (VInt y) /\
    self' !! "month" = Some (VInt m) /\
    1 <= y <= 9999 /\ 1 <= m <= 12 /\
    exists name first last,
      name_of_tag tag = Some name /\
      days_of_period p y m = Some (first, last) /\
      cube = built_cube d name (days_since_epoch y m first) (days_since_epoch y m last).
Proof.
  rewrite to_cube_load.
  destruct (ABFField.getattr fs "data" self) as [[e|d] s] eqn:Hget; [done|].
  pose proof (getattr_data_inv _ _ _ _ Hget) as Hd. cbn in Hd.
  intros Hcube.
  destruct (to_cube_loaded_inv _ _ _ _ _ Hd Hcube)
    as (-> & tag & p & y & m & ? & ? & ? & ? & ? & ? & ?).
  exists d, tag, p, y, m. repeat (split; [done|]). done.
Qed.

Lemma fresh_filename (filename : string) :
  fresh filename !! "_filename" = Some (VStr filename).
Proof. apply lookup_insert_eq. Qed.

Lemma fresh_no_data (filename : string) : fresh filename !! "data" = None.
Proof. by rewrite fresh_lookup. Qed.

(** What [to_cube] does on a fresh handle: the first access to the grid
    raises and ends it, or loads the field and it goes on from there. *)
Lemma to_cube_fresh fs (filename : string) :
  (exists e s,
     ABFField.getattr fs "data" (fresh filename) = (inl e, s) /\
     ABFField.to_cube fs (fresh filename) = (inl e, s)) \/
  (exists v y m bytes grid,
     Py.int (version_token filename) = inr v /\
     Py.int (year_token filename) = inr y /\
     month_numbers !! month_token filename = Some m /\
     fs !! filename = Some bytes /\
     Z.of_nat (length bytes) = X_SIZE * Y_SIZE /\
     decoded_grid bytes grid /\
     ABFField.getattr fs "data" (fresh filename)
     = (inr (VArray grid), loaded (fresh filename) filename v y m grid) /\
     ABFField.to_cube fs (fresh filename)
     = ABFField.to_cube fs (loaded (fresh filename) filename v y m grid)).
Proof.
  rewrite to_cube_load.
  destruct (ABFField.getattr fs "data" (fresh filename)) as [[e|d] s] eqn:Hget.
  - left. by exists e, s.
  - right.
    destruct (getattr_data_load_inv _ _ _ _ (fresh_no_data filename) Hget)
      as (f & v & y & m & bytes & grid & Hf & ? & ? & ? & ? & ? & ? & -> & ->).
    rewrite fresh_filename in Hf. injection Hf as <-.
    exists v, y, m, bytes, grid. repeat (split; [done|]). done.
Qed.

(** ** C4: the constructor *)

(** C4.  Constructing a field handle from a path whose base name has
    exactly 24 characters returns the handle, which holds the path and
    nothing else, whatever the month, period and format fields of the name
    are; an unknown month then makes the first access to the grid raise,
    and an unknown format or period makes [to_cube] raise.  Constructing
    from a base name of any other length raises [ValueError]; the
    constructor is a function of the path alone and reads no file. *)
Theorem constructor_failure_timing (filename : string) :
  (Py.len (basename_of filename) = 24 ->
     ABFField.__init__ filename = inr (fresh filename) /\
     (forall key, key <> "_filename" -> fresh filename !! key = None) /\
     forall fs,
       (month_numbers !! month_token filename = None ->
          raises (ABFField.getattr fs "data" (fresh filename)).1 /\
          raises (ABFField.to_cube fs (fresh filename)).1) /\
       (name_of_tag (format_token filename) = None ->
          raises (ABFField.to_cube fs (fresh filename)).1) /\
       (period_token filename <> "a" -> period_token filename <> "b" ->
          raises (ABFField.to_cube fs (fresh filename)).1)) /\
  (Py.len (basename_of filename) <> 24 ->
     ABFField.__init__ filename
     = inl (ValueError ("ABFField expects a filename of 24 characters: "
                        +:+ basename_of filename))).
Proof.
  split; [|apply init_fails].
  intros Hlen. split; [by apply init_ok|]. split.
  { intros key Hkey. rewrite fresh_lookup. by case_decide. }
  intros fs.
  destruct (to_cube_fresh fs filename)
    as [(e & s & Hget & Hcube)
       |(v & y & m & bytes & grid & Hv & Hy & Hm & Hfile & Hsize & Hgrid & Hget & Hcube)].
  { rewrite Hget, Hcube. repeat split; intros; by exists e. }
  destruct (loaded_lookup (fresh filename) filename v y m grid)
    as (_ & Hyear & Hmonth & Hperiod & Hformat & Hdata & _).
  rewrite Hcube. split; [|split].
  - intros Hnone. by rewrite Hm in Hnone.
  - intros Hname.
    rewrite (to_cube_loaded_bad_format _ _ _ _ Hdata Hformat Hname). by eexists.
  - intros Ha Hb.
    destruct (name_of_tag (format_token filename)) as [name|] eqn:Hname.
    + rewrite (to_cube_loaded_bad_period _ _ _ _ _ _ Hdata Hformat Hname Hperiod).
      * by eexists.
      * by apply String.eqb_neq.
      * by apply String.eqb_neq.
    + rewrite (to_cube_loaded_bad_format _ _ _ _ Hdata Hformat Hname). by eexists.
Qed.

(** The test names of the repository: 24 zeros construct a handle although
    ["000"] is no month, and the first access to the grid then raises;
    ["too_short"] does not construct. *)
Lemma constructor_failure_timing_witness :
  (ABFField.__init__ "/path/to/abf/file/000000000000000000000000"
   = inr (fresh "/path/to/abf/file/000000000000000000000000") /\
   raises (ABFField.getattr ∅ "data"
             (fresh "/path/to/abf/file/000000000000000000000000")).1) /\
  ABFField.__init__ "/path/to/abf/file/too_short"
  = inl (ValueError "ABFField expects a filename of 24 characters: too_short").
Proof.
  split.
  - destruct (constructor_failure_timing "/path/to/abf/file/000000000000000000000000")
      as [H24 _].
    destruct (H24 eq_refl) as (Hinit & _ & Hlater).
    split; [exact Hinit|].
    destruct (Hlater ∅) as [Hmonth _]. apply Hmonth. vm_compute. reflexivity.
  - destruct (constructor_failure_timing "/path/to/abf/file/too_short") as [_ Hbad].
    apply Hbad. vm_compute. discriminate.
Defined.

(** ** C10: the size of the file *)

(** C10.  When the file of a field does not hold exactly 4320*2160 bytes,
    longer as well as shorter, [_read] raises and stores no grid, the
    first access to the grid raises and leaves the field without one, and
    [to_cube] raises; when the name parses, the exception is the
    [ValueError] of [reshape].  No prefix of a longer file is decoded. *)
Theorem grid_read_size_exact fs (self : pyobj) (filename : string) (bytes : list byte) :
  self !! "_filename" = Some (VStr filename) ->
  fs !! filename = Some bytes ->
  Z.of_nat (length bytes) <> 4320 * 2160 ->
  (exists e self',
     ABFField._read fs self = (inl e, self') /\
     self' !! "data" = self !! "data") /\
  (self !! "data" = None ->
     (exists e self',
        ABFField.getattr fs "data" self = (inl e, self') /\
        self' !! "data" = None) /\
     raises (ABFField.to_cube fs self).1) /\
  (forall v y m,
     Py.int (version_token filename) = inr v ->
     Py.int (year_token filename) = inr y ->
     month_numbers !! month_token filename = Some m ->
     exists msg, (ABFField._read fs self).1 = inl (ValueError msg)) /\
  raises (ABFField.decode (Np.u8 <$> bytes)).
Proof.
  intros Hfn Hfile Hlen.
  assert (Hfail : forall s1, ABFField._read fs self <> (inr tt, s1)).
  { intros s1 Hread. apply read_inv in Hread.
    destruct Hread as (f & v & y & m & bs & grid & Hf & _ & _ & _ & Hbs & Hsize & _).
    rewrite Hfn in Hf. injection Hf as <-. rewrite Hfile in Hbs.
    injection Hbs as <-. by apply Hlen. }
  split; [|split; [|split]].
  - destruct (ABFField._read fs self) as [[e|[]] s1] eqn:Hread.
    + exists e, s1. split; [done|]. by apply read_inv in Hread.
    + by destruct (Hfail s1).
  - intros Hd.
    assert (Hget : exists e self',
      ABFField.getattr fs "data" self = (inl e, self') /\ self' !! "data" = None).
    { rewrite (getattr_data_absent _ _ Hd). run_M.
      destruct (ABFField._read fs self) as [[e|[]] s1] eqn:Hread.
      + exists e, s1. split; [done|]. apply read_inv in Hread. by rewrite Hread.
      + by destruct (Hfail s1). }
    split; [exact Hget|].
    destruct Hget as (e & s1 & Hget & _). rewrite to_cube_load, Hget. by exists e.
  - intros v y m Hv Hy Hm.
    destruct (read_size_mismatch fs self filename Hfn v y m bytes Hv Hy Hm Hfile Hlen)
      as [msg ->].
    by exists msg.
  - destruct (decode_shape_mismatch (Np.u8 <$> bytes)) as [msg Hmsg].
    + by rewrite length_fmap.
    + by eexists.
Qed.

(** A file one byte longer than the grid, for the name of the docstring. *)
Lemma grid_read_size_exact_witness :
  raises (ABFField.getattr
            {[ "AVHRRBUVI01.1985feba.abl" := arange_file (4320 * 2160 + 1) ]}
            "data" (fresh "AVHRRBUVI01.1985feba.abl")).1.
Proof.
  assert (Hlen : Z.of_nat (length (arange_file (4320 * 2160 + 1))) <> 4320 * 2160).
  { rewrite arange_file_length; lia. }
  destruct (grid_read_size_exact
              {[ "AVHRRBUVI01.1985feba.abl" := arange_file (4320 * 2160 + 1) ]}
              (fresh "AVHRRBUVI01.1985feba.abl") "AVHRRBUVI01.1985feba.abl"
              (arange_file (4320 * 2160 + 1))
              (fresh_filename _) (lookup_singleton_eq _ _) Hlen)
    as (_ & Hget & _).
  destruct (Hget (fresh_no_data _)) as [(e & s & -> & _) _].
  by exists e.
Defined.

(** ** C1: the decoded grid *)

(** C1.  For a field whose name parses and whose file holds exactly
    4320*2160 bytes, [_read] returns and stores a grid of 2160 rows by
    4320 columns whose cell (r, c) holds the byte at index
    c*2160 + (2159 - r) of the file, masked exactly when that byte is
    greater than 100, with fill value 255, so that a masked cell reads 255
    once filled.  For the file 0, 1, 2, ... (mod 256) read through
    ["/path/to/my-prefix12-9876marb-abf"], the grid has element 31 at
    [0, 4317], element 0 at [2159, 0], and a masked element at [0, 0]. *)
Theorem read_grid_postcondition :
  (forall fs (self : pyobj) filename v y m bytes,
     self !! "_filename" = Some (VStr filename) ->
     Py.int (version_token filename) = inr v ->
     Py.int (year_token filename) = inr y ->
     month_numbers !! month_token filename = Some m ->
     fs !! filename = Some bytes ->
     Z.of_nat (length bytes) = 4320 * 2160 ->
     exists grid self',
       ABFField._read fs self = (inr tt, self') /\
       self' !! "data" = Some (VArray grid) /\
       decoded_grid bytes grid) /\
  (forall (b : byte) (grid : Np.MaskedArray) bytes r c,
     decoded_grid bytes grid ->
     0 <= r < 2160 -> 0 <= c < 4320 ->
     bytes !! Z.to_nat (c * 2160 + (2159 - r)) = Some b ->
     (Np.ma_getitem grid r c = Some Np.Masked <-> Np.u8 b > 100) /\
     (Np.u8 b > 100 -> Np.filled grid r c = Some 255) /\
     (Np.u8 b <= 100 -> Np.ma_getitem grid r c = Some (Np.Value (Np.u8 b)))) /\
  (let path := "/path/to/my-prefix12-9876marb-abf" in
   let fs : gmap string (list byte) := {[ path := arange_file (4320 * 2160) ]} in
   exists field grid field',
     ABFField.__init__ path = inr field /\
     ABFField.getattr fs "data" field = (inr (VArray grid), field') /\
     Np.shape (Np.data grid) = (2160, 4320) /\
     Np.ma_getitem grid 0 4317 = Some (Np.Value 31) /\
     Np.ma_getitem grid 2159 0 = Some (Np.Value 0) /\
     Np.ma_getitem grid 0 0 = Some Np.Masked /\
     Np.filled grid 0 0 = Some 255 /\
     field' !! "version" = Some (VInt 12) /\
     field' !! "year" = Some (VInt 9876) /\
     field' !! "month" = Some (VInt 3) /\
     field' !! "period" = Some (VStr "b") /\
     field' !! "format" = Some (VStr "abf")).
Proof.
  split; [|split].
  - intros fs self filename v y m bytes Hfn Hv Hy Hm Hfile Hlen.
    destruct (read_ok fs self filename Hfn v y m bytes Hv Hy Hm Hfile Hlen)
      as (grid & Hgrid & Hread).
    exists grid, (loaded self filename v y m grid).
    split; [exact Hread|]. split; [|exact Hgrid]. apply loaded_lookup.
  - intros b grid bytes r c (_ & _ & _ & Hcells) Hr Hc Hb.
    destruct (Hcells r c Hr Hc) as (b' & Hb' & _ & _ & Hitem & Hfilled).
    rewrite Hb in Hb'. injection Hb' as <-.
    rewrite Hitem, Hfilled.
    destruct (Z.ltb_spec 100 (Np.u8 b)); repeat split; intros; (done || lia).
  - intros path fs.
    destruct (getattr_data_ok fs (fresh path) path 12 9876 3 (arange_file (4320 * 2160)))
      as (grid & (Hshape & _ & _ & Hcells) & _ & Hget).
    { apply fresh_no_data. }
    { apply fresh_filename. }
    { vm_compute. reflexivity. }
    { vm_compute. reflexivity. }
    { vm_compute. reflexivity. }
    { apply lookup_singleton_eq. }
    { apply (arange_file_length (4320 * 2160)). lia. }
    exists (fresh path), grid, (loaded (fresh path) path 12 9876 3 grid).
    split; [apply init_ok; reflexivity|]. split; [exact Hget|]. split; [exact Hshape|].
    assert (Hcell : forall r c, 0 <= r < 2160 -> 0 <= c < 4320 ->
      Np.ma_getitem grid r c
      = Some (if 100 <? (c * 2160 + (2159 - r)) mod 256 then Np.Masked
              else Np.Value ((c * 2160 + (2159 - r)) mod 256)) /\
      Np.filled grid r c
      = Some (if 100 <? (c * 2160 + (2159 - r)) mod 256 then 255
              else (c * 2160 + (2159 - r)) mod 256)).
    { intros r c Hr Hc.
      destruct (Hcells r c Hr Hc) as (b & Hb & _ & _ & Hitem & Hfilled).
      rewrite arange_file_lookup in Hb by lia. injection Hb as <-.
      rewrite u8_byte_of_Z in Hitem, Hfilled. by split. }
    destruct (Hcell 0 4317) as [H1 _]; [lia|lia|].
    destruct (Hcell 2159 0) as [H2 _]; [lia|lia|].
    destruct (Hcell 0 0) as [H3 H4]; [lia|lia|].
    split; [exact H1|]. split; [exact H2|]. split; [exact H3|]. split; [exact H4|].
    destruct (loaded_lookup (fresh path) path 12 9876 3 grid)
      as (Hversion & Hyear & Hmonth & Hperiod & Hformat & _).
    repeat split; assumption.
Qed.

(** The postcondition at the file 0, 1, 2, ... (mod 256) of the test. *)
Lemma read_grid_postcondition_witness :
  exists grid self',
    ABFField._read {[ "/path/to/my-prefix12-9876marb-abf" := arange_file (4320 * 2160) ]}
      (fresh "/path/to/my-prefix12-9876marb-abf") = (inr tt, self') /\
    self' !! "data" = Some (VArray grid) /\
    decoded_grid (arange_file (4320 * 2160)) grid.
Proof.
  apply (proj1 read_grid_postcondition
           {[ "/path/to/my-prefix12-9876marb-abf" := arange_file (4320 * 2160) ]}
           (fresh "/path/to/my-prefix12-9876marb-abf")
           "/path/to/my-prefix12-9876marb-abf" 12 9876 3 (arange_file (4320 * 2160))).
  - apply fresh_filename.
  - vm_compute. reflexivity.
  - vm_compute. reflexivity.
  - vm_compute. reflexivity.
  - apply lookup_singleton_eq.
  - apply (arange_file_length (4320 * 2160)). lia.
Defined.

(** ** C5: what triggers the parse *)

(** C5, as stated, fails: on the fresh handle of the docstring's name,
    whose version field reads 1, the first access to [version] raises
    [AttributeError] and parses nothing, whatever the files are. *)
Lemma lazy_parse_metadata_counterexample :
  ABFField.__init__ "AVHRRBUVI01.1985feba.abl" = inr (fresh "AVHRRBUVI01.1985feba.abl") /\
  Py.int (version_token "AVHRRBUVI01.1985feba.abl") = inr 1 /\
  (forall fs,
     ABFField.getattr fs "version" (fresh "AVHRRBUVI01.1985feba.abl")
     = (inl (AttributeError "ABFField has no attribute 'version'"),
        fresh "AVHRRBUVI01.1985feba.abl")) /\
  ~ (forall fs, exists field',
       ABFField.getattr fs "version" (fresh "AVHRRBUVI01.1985feba.abl")
       = (inr (VInt 1), field')).
Proof.
  assert (Hget : forall fs,
    ABFField.getattr fs "version" (fresh "AVHRRBUVI01.1985feba.abl")
    = (inl (AttributeError "ABFField has no attribute 'version'"),
       fresh "AVHRRBUVI01.1985feba.abl")).
  { intros fs. rewrite getattr_absent; [reflexivity|done|]. by rewrite fresh_lookup. }
  split; [reflexivity|]. split; [vm_compute; reflexivity|]. split; [exact Hget|].
  intros Hclaim. destruct (Hclaim ∅) as [field' Hfield]. rewrite Hget in Hfield. done.
Qed.

(** C5, amended.  For a handle constructed from a path with a
    24-character base name, nothing is parsed or read at construction.
    The first access to the grid ([data]) is what performs the parse and
    the read: when the name parses and the file has the size of the grid,
    it returns the decoded grid and leaves the parsed version, year,
    month, period and format on the handle, where later accesses find
    them.  Before that, an access to one of those five fields raises
    [AttributeError] and parses nothing. *)
Theorem lazy_parse_on_grid_access fs (filename : string) v y m (bytes : list byte) :
  Py.len (basename_of filename) = 24 ->
  Py.int (version_token filename) = inr v ->
  Py.int (year_token filename) = inr y ->
  month_numbers !! month_token filename = Some m ->
  fs !! filename = Some bytes ->
  Z.of_nat (length bytes) = 4320 * 2160 ->
  ABFField.__init__ filename = inr (fresh filename) /\
  (forall key, key ∈ "data" :: metadata_keys -> fresh filename !! key = None) /\
  (forall key, key ∈ metadata_keys ->
     ABFField.getattr fs key (fresh filename)
     = (inl (AttributeError ("ABFField has no attribute '" +:+ key +:+ "'")),
        fresh filename)) /\
  exists grid field',
    decoded_grid bytes grid /\
    ABFField.getattr fs "data" (fresh filename) = (inr (VArray grid), field') /\
    ABFField.getattr fs "version" field' = (inr (VInt v), field') /\
    ABFField.getattr fs "year" field' = (inr (VInt y), field') /\
    ABFField.getattr fs "month" field' = (inr (VInt m), field') /\
    ABFField.getattr fs "period" field' = (inr (VStr (period_token filename)), field') /\
    ABFField.getattr fs "format" field' = (inr (VStr (format_token filename)), field') /\
    ABFField.getattr fs "data" field' = (inr (VArray grid), field').
Proof.
  intros Hlen Hv Hy Hm Hfile Hsize.
  split; [by apply init_ok|].
  split.
  { intros key Hkey. rewrite fresh_lookup.
    repeat (apply elem_of_cons in Hkey as [->|Hkey]); try done.
    by apply elem_of_nil in Hkey. }
  split.
  { intros key Hkey.
    repeat (apply elem_of_cons in Hkey as [->|Hkey]);
      try (by apply getattr_absent; [|rewrite fresh_lookup]).
    by apply elem_of_nil in Hkey. }
  destruct (getattr_data_ok fs (fresh filename) filename v y m bytes
              (fresh_no_data filename) (fresh_filename filename) Hv Hy Hm Hfile Hsize)
    as (grid & Hgrid & _ & Hget).
  exists grid, (loaded (fresh filename) filename v y m grid).
  destruct (loaded_lookup (fresh filename) filename v y m grid)
    as (Hversion & Hyear & Hmonth & Hperiod & Hformat & Hdata & _).
  split; [exact Hgrid|]. split; [exact Hget|].
  repeat split; by apply getattr_present.
Qed.

(** The amended statement at the name and the file of the test. *)
Lemma lazy_parse_on_grid_access_witness :
  exists grid field',
    decoded_grid (arange_file (4320 * 2160)) grid /\
    ABFField.getattr {[ "/path/to/my-prefix12-9876marb-abf" := arange_file (4320 * 2160) ]}
      "data" (fresh "/path/to/my-prefix12-9876marb-abf") = (inr (VArray grid), field') /\
    field' !! "version" = Some (VInt 12).
Proof.
  destruct (lazy_parse_on_grid_access
              {[ "/path/to/my-prefix12-9876marb-abf" := arange_file (4320 * 2160) ]}
              "/path/to/my-prefix12-9876marb-abf" 12 9876 3 (arange_file (4320 * 2160)))
    as (_ & _ & _ & grid & field' & Hgrid & Hget & Hversion & _).
  - reflexivity.
  - vm_compute. reflexivity.
  - vm_compute. reflexivity.
  - vm_compute. reflexivity.
  - apply lookup_singleton_eq.
  - apply (arange_file_length (4320 * 2160)). lia.
  - exists grid, field'. split; [exact Hgrid|]. split; [exact Hget|].
    pose proof (getattr_data_inv _ _ _ _ Hget) as Hd. cbn in Hd.
    destruct (field' !! "version") as [ver|] eqn:Hver.
    + rewrite (getattr_present _ _ _ _ Hver) in Hversion. by injection Hversion as ->.
    + rewrite getattr_absent in Hversion by done. done.
Defined.

(** ** C7: the month token *)

Lemma month_numbers_table :
  month_numbers !! "jan" = Some 1 /\ month_numbers !! "feb" = Some 2 /\
  month_numbers !! "mar" = Some 3 /\ month_numbers !! "apr" = Some 4 /\
  month_numbers !! "may" = Some 5 /\ month_numbers !! "jun" = Some 6 /\
  month_numbers !! "jul" = Some 7 /\ month_numbers !! "aug" = Some 8 /\
  month_numbers !! "sep" = Some 9 /\ month_numbers !! "oct" = Some 10 /\
  month_numbers !! "nov" = Some 11 /\ month_numbers !! "dec" = Some 12.
Proof. repeat split; vm_compute; reflexivity. Qed.

Lemma month_numbers_lookup (token : string) (k : Z) :
  month_numbers !! token = Some k ->
  token ∈ month_tokens /\ 1 <= k <= 12.
Proof.
  unfold month_numbers. intros H.
  apply elem_of_list_to_map_2 in H.
  repeat (apply elem_of_cons in H as [[= -> ->]|H]);
    try (split; [|lia]; repeat ((by left) || right)).
  by apply elem_of_nil in H.
Qed.

Lemma month_numbers_tokens (token : string) :
  token ∈ month_tokens <-> is_Some (month_numbers !! token).
Proof.
  split.
  - intros H.
    repeat (apply elem_of_cons in H as [->|H]); try (by eexists; vm_compute).
    by apply elem_of_nil in H.
  - intros [k Hk]. by destruct (month_numbers_lookup _ _ Hk).
Qed.

(** C7.  When the three characters at offsets [16,19) of the base name
    are not one of the twelve lowercase abbreviations, [_read] raises an
    exception of the kind [InvalidFilenameError] (the [KeyError] of the
    table lookup when the version and year fields parse) and stores no
    grid, whatever the files are.  When they are one of the twelve, the
    lookup gives the month number, from 1 for ["jan"] to 12 for ["dec"],
    and [_read] stores it as the month of the field.  Upper-case tokens
    are not in the table. *)
Theorem month_token_validation fs (self : pyobj) (filename : string) :
  self !! "_filename" = Some (VStr filename) ->
  (month_token filename ∉ month_tokens ->
     exists e self',
       ABFField._read fs self = (inl e, self') /\
       InvalidFilenameError e /\
       self' !! "data" = self !! "data" /\
       (forall v y,
          Py.int (version_token filename) = inr v ->
          Py.int (year_token filename) = inr y ->
          e = KeyError (month_token filename))) /\
  (month_token filename ∈ month_tokens ->
     exists k,
       month_numbers !! month_token filename = Some k /\ 1 <= k <= 12 /\
       forall v y,
         Py.int (version_token filename) = inr v ->
         Py.int (year_token filename) = inr y ->
         (ABFField._read fs self).2 !! "month" = Some (VInt k)) /\
  (month_numbers !! "jan" = Some 1 /\ month_numbers !! "feb" = Some 2 /\
   month_numbers !! "mar" = Some 3 /\ month_numbers !! "apr" = Some 4 /\
   month_numbers !! "may" = Some 5 /\ month_numbers !! "jun" = Some 6 /\
   month_numbers !! "jul" = Some 7 /\ month_numbers !! "aug" = Some 8 /\
   month_numbers !! "sep" = Some 9 /\ month_numbers !! "oct" = Some 10 /\
   month_numbers !! "nov" = Some 11 /\ month_numbers !! "dec" = Some 12) /\
  month_numbers !! "JAN" = None /\ month_numbers !! "Jan" = None.
Proof.
  intros Hfn. split; [|split; [|split; [apply month_numbers_table|]]].
  - intros Htok.
    assert (Hnone : month_numbers !! month_token filename = None).
    { destruct (month_numbers !! month_token filename) as [k|] eqn:Hk; [|done].
      destruct Htok. by destruct (month_numbers_lookup _ _ Hk). }
    destruct (Py.int (version_token filename)) as [e|v] eqn:Hv.
    { exists e, self. rewrite (read_version_fails fs self filename Hfn e Hv).
      repeat split; try done.
      revert Hv. unfold Py.int, Raise, Ok. case_match; [done|]. by intros [= <-]. }
    destruct (Py.int (year_token filename)) as [e|y] eqn:Hy.
    { exists e, (<["version" := VInt v]> self).
      rewrite (read_year_fails fs self filename Hfn v e Hv Hy).
      repeat split; try done.
      - revert Hy. unfold Py.int, Raise, Ok. case_match; [done|]. by intros [= <-].
      - by rewrite lookup_insert_ne. }
    exists (KeyError (month_token filename)), (parsed self filename v y).
    rewrite (read_month_fails fs self filename Hfn v y Hv Hy Hnone).
    repeat split; try done. apply parsed_lookup.
  - intros Htok. apply month_numbers_tokens in Htok as [k Hk].
    exists k. split; [done|]. split; [by destruct (month_numbers_lookup _ _ Hk)|].
    intros v y Hv Hy.
    destruct (fs !! filename) as [bytes|] eqn:Hfile; cycle 1.
    { rewrite (read_no_file fs self filename Hfn v y k Hv Hy Hk Hfile).
      apply lookup_insert_eq. }
    destruct (Z.eq_dec (Z.of_nat (length bytes)) (X_SIZE * Y_SIZE)) as [Hlen|Hlen].
    + destruct (read_ok fs self filename Hfn v y k bytes Hv Hy Hk Hfile Hlen)
        as (grid & _ & ->).
      apply loaded_lookup.
    + destruct (read_size_mismatch fs self filename Hfn v y k bytes Hv Hy Hk Hfile Hlen)
        as (msg & ->).
      apply lookup_insert_eq.
  - split; vm_compute; reflexivity.
Qed.

(** The name of the docstring, whose month is ["feb"], read with no file
    at hand: the month of the field is 2 all the same. *)
Lemma month_token_validation_witness :
  exists k,
    month_numbers !! month_token "AVHRRBUVI01.1985feba.abl" = Some k /\ 1 <= k <= 12 /\
    forall v y,
      Py.int (version_token "AVHRRBUVI01.1985feba.abl") = inr v ->
      Py.int (year_token "AVHRRBUVI01.1985feba.abl") = inr y ->
      (ABFField._read ∅ (fresh "AVHRRBUVI01.1985feba.abl")).2 !! "month" = Some (VInt k).
Proof.
  destruct (month_token_validation ∅ (fresh "AVHRRBUVI01.1985feba.abl")
              "AVHRRBUVI01.1985feba.abl" (fresh_filename _)) as (_ & Hknown & _).
  apply Hknown. vm_compute. right. left.
Defined.

(** ** The calendar *)

Lemma days_before_next_year (y : Z) :
  Datetime.days_before_year (y + 1)
  = Datetime.days_before_year y + 365 + (if Datetime.is_leap y then 1 else 0).
Proof.
  unfold Datetime.days_before_year, Datetime.is_leap.
  replace (y + 1 - 1) with y by lia.
  destruct (Z.eqb_spec (y mod 4) 0), (Z.eqb_spec (y mod 100) 0),
    (Z.eqb_spec (y mod 400) 0); cbn [andb orb negb];
    Z.to_euclidean_division_equations; lia.
Qed.

(** The day after the last day of a month is the first day of the next. *)
Lemma last_day_of_month (y m : Z) :
  1 <= m <= 12 ->
  Datetime.ymd2ord (next_month_first y m).1 (next_month_first y m).2 1
  = Datetime.ymd2ord y m (Datetime.days_in_month y m) + 1.
Proof.
  intros Hm. unfold next_month_first, Datetime.ymd2ord.
  assert (Hcases : m = 1 \/ m = 2 \/ m = 3 \/ m = 4 \/ m = 5 \/ m = 6 \/ m = 7 \/
                   m = 8 \/ m = 9 \/ m = 10 \/ m = 11 \/ m = 12) by lia.
  destruct Hcases as [->|[->|[->|[->|[->|[->|[->|[->|[->|[->|[->| ->]]]]]]]]]]];
    cbn [Z.eqb Pos.eqb fst snd];
    rewrite ?days_before_next_year;
    unfold Datetime.days_before_month, Datetime.days_in_month;
    destruct (Datetime.is_leap y);
    repeat match goal with
      | |- context [Datetime.days_before_month_table ?k] =>
          let v := eval vm_compute in (Datetime.days_before_month_table k) in
          change (Datetime.days_before_month_table k) with v
      | |- context [Datetime.days_in_month_table ?k] =>
          let v := eval vm_compute in (Datetime.days_in_month_table k) in
          change (Datetime.days_in_month_table k) with v
      | |- context [if ?b then _ else _] =>
          let v := eval vm_compute in b in change b with v; cbv iota
      end;
    lia.
Qed.

Lemma half_month_days (y m : Z) :
  days_since_epoch y m 15 = days_since_epoch y m 1 + 14 /\
  days_since_epoch y m 16 = days_since_epoch y m 15 + 1.
Proof. unfold days_since_epoch, Datetime.ymd2ord. lia. Qed.

(** ** [to_cube] on a field *)

Lemma name_of_tag_spec (tag name : string) :
  name_of_tag tag = Some name <->
  (Py.lower tag = "abf" /\ name = "FAPAR") \/
  (Py.lower tag = "abl" /\ name = "leaf_area_index").
Proof.
  unfold name_of_tag.
  destruct (String.eqb_spec (Py.lower tag) "abf") as [Habf|Habf];
    [|destruct (String.eqb_spec (Py.lower tag) "abl") as [Habl|Habl]].
  - rewrite Habf. split; [intros [= <-]; by left|].
    intros [[_ ->]|[? _]]; done.
  - rewrite Habl. split; [intros [= <-]; by right|].
    intros [[? _]|[_ ->]]; done.
  - split; [done|]. intros [[? _]|[? _]]; done.
Qed.

Lemma name_of_tag_none (tag : string) :
  name_of_tag tag = None <-> Py.lower tag <> "abf" /\ Py.lower tag <> "abl".
Proof.
  unfold name_of_tag.
  destruct (String.eqb_spec (Py.lower tag) "abf");
    [|destruct (String.eqb_spec (Py.lower tag) "abl")]; naive_solver.
Qed.

Lemma days_of_period_spec (p : string) (y m first last : Z) :
  days_of_period p y m = Some (first, last) <->
  (p = "a" /\ first = 1 /\ last = 15) \/
  (p = "b" /\ first = 16 /\ last = Datetime.days_in_month y m).
Proof.
  unfold days_of_period.
  destruct (String.eqb_spec p "a") as [->|Ha];
    [|destruct (String.eqb_spec p "b") as [->|Hb]]; naive_solver.
Qed.

Lemma eq_str_false (v : pyval) (s : string) :
  v <> VStr s -> PyVal.eq_str v s = false.
Proof.
  intros Hne. destruct v as [z|s'|a]; try done. cbn.
  apply String.eqb_neq. by intros ->.
Qed.

(** [to_cube] on any field whose grid can be had. *)
Lemma to_cube_ok fs (self field : pyobj) d tag p y m name first last :
  ABFField.getattr fs "data" self = (inr d, field) ->
  field !! "format" = Some (VStr tag) ->
  field !! "period" = Some (VStr p) ->
  field !! "year" = Some (VInt y) ->
  field !! "month" = Some (VInt m) ->
  name_of_tag tag = Some name ->
  days_of_period p y m = Some (first, last) ->
  1 <= y <= 9999 -> 1 <= m <= 12 ->
  ABFField.to_cube fs self
  = (inr (built_cube d name (days_since_epoch y m first) (days_since_epoch y m last)),
     field).
Proof.
  intros Hget. rewrite to_cube_load, Hget.
  pose proof (getattr_data_inv _ _ _ _ Hget) as Hd. cbn in Hd.
  by apply to_cube_loaded_ok.
Qed.

Lemma to_cube_bad_format fs (self field : pyobj) d tag :
  ABFField.getattr fs "data" self = (inr d, field) ->
  field !! "format" = Some (VStr tag) ->
  name_of_tag tag = None ->
  ABFField.to_cube fs self
  = (inl (TranslationError ("Unknown ABF/ABL format: " +:+ tag)), field).
Proof.
  intros Hget. rewrite to_cube_load, Hget.
  pose proof (getattr_data_inv _ _ _ _ Hget) as Hd. cbn in Hd.
  by apply (to_cube_loaded_bad_format _ _ d).
Qed.

Lemma to_cube_bad_period fs (self field : pyobj) d tag name period :
  ABFField.getattr fs "data" self = (inr d, field) ->
  field !! "format" = Some (VStr tag) ->
  name_of_tag tag = Some name ->
  field !! "period" = Some period ->
  period <> VStr "a" -> period <> VStr "b" ->
  ABFField.to_cube fs self
  = (inl (TranslationError ("Unknown period: " +:+ PyVal.format period)), field).
Proof.
  intros Hget Hf Hname Hp Ha Hb. rewrite to_cube_load, Hget.
  pose proof (getattr_data_inv _ _ _ _ Hget) as Hd. cbn in Hd.
  eapply to_cube_loaded_bad_period; eauto using eq_str_false.
Qed.

Lemma mock_field_lookup (format period : string) (year month : Z) :
  ABFField.getattr ∅ "data" (mock_field format period year month)
  = (inr (VStr "DATA"), mock_field format period year month) /\
  mock_field format period year month !! "format" = Some (VStr format) /\
  mock_field format period year month !! "period" = Some (VStr period) /\
  mock_field format period year month !! "year" = Some (VInt year) /\
  mock_field format period year month !! "month" = Some (VInt month).
Proof.
  split; [apply getattr_present|]; unfold mock_field; repeat split; by simplify_map_eq.
Qed.

(** ** C6: the name and the units *)

(** C6.  A cube [to_cube] returns is named ["FAPAR"] exactly when the
    format of the field, lowercased, is ["abf"], and ["leaf_area_index"]
    exactly when it is ["abl"]; its units are ["%"] in both cases.  For any
    other format [to_cube] raises the [TranslationError] of an unknown
    format.  With one of the two formats, a period ['a'] or ['b'] and a
    year and month that make a date, it does return a cube. *)
Theorem naming_and_units fs (self : pyobj) :
  (forall cube field,
     ABFField.to_cube fs self = (inr cube, field) ->
     exists tag,
       field !! "format" = Some (VStr tag) /\
       (Iris.cube_name cube = Some "FAPAR" <-> Py.lower tag = "abf") /\
       (Iris.cube_name cube = Some "leaf_area_index" <-> Py.lower tag = "abl") /\
       Iris.cube_units cube = Some "%") /\
  (forall d field tag,
     ABFField.getattr fs "data" self = (inr d, field) ->
     field !! "format" = Some (VStr tag) ->
     Py.lower tag <> "abf" -> Py.lower tag <> "abl" ->
     exists e, ABFField.to_cube fs self = (inl e, field) /\ UnknownFormatError e) /\
  (forall d field tag p y m,
     ABFField.getattr fs "data" self = (inr d, field) ->
     field !! "format" = Some (VStr tag) ->
     field !! "period" = Some (VStr p) ->
     field !! "year" = Some (VInt y) ->
     field !! "month" = Some (VInt m) ->
     Py.lower tag = "abf" \/ Py.lower tag = "abl" ->
     p = "a" \/ p = "b" ->
     1 <= y <= 9999 -> 1 <= m <= 12 ->
     exists cube,
       ABFField.to_cube fs self = (inr cube, field) /\
       Iris.cube_name cube
       = Some (if String.eqb (Py.lower tag) "abf" then "FAPAR" else "leaf_area_index") /\
       Iris.cube_units cube = Some "%").
Proof.
  split; [|split].
  - intros cube field Hcube.
    destruct (to_cube_inv _ _ _ _ Hcube)
      as (d & tag & p & y & m & _ & _ & Hf & _ & _ & _ & _ & _ &
          name & first & last & Hname & _ & ->).
    exists tag. split; [done|]. cbn [built_cube Iris.cube_name Iris.cube_units].
    apply name_of_tag_spec in Hname as [[Hl ->]|[Hl ->]]; rewrite Hl;
      repeat split; done.
  - intros d field tag Hget Hf Habf Habl.
    eexists. split.
    + eapply to_cube_bad_format; eauto. by apply name_of_tag_none.
    + by exists tag.
  - intros d field tag p y m Hget Hf Hp Hy Hm Htag Hper Hyr Hmr.
    assert (Hname : name_of_tag tag
      = Some (if String.eqb (Py.lower tag) "abf" then "FAPAR" else "leaf_area_index")).
    { unfold name_of_tag. destruct Htag as [->| ->]; reflexivity. }
    assert (Hdays : exists first last, days_of_period p y m = Some (first, last)).
    { destruct Hper as [->| ->]; by do 2 eexists. }
    destruct Hdays as (first & last & Hdays).
    eexists. split; [by eapply to_cube_ok|]. done.
Qed.

(** The two fields of the tests: format ["abf"] gives ["FAPAR"]. *)
Lemma naming_and_units_witness :
  exists cube,
    ABFField.to_cube ∅ (mock_field "abf" "a" 2020 4)
    = (inr cube, mock_field "abf" "a" 2020 4) /\
    Iris.cube_name cube = Some "FAPAR" /\
    Iris.cube_units cube = Some "%".
Proof.
  destruct (mock_field_lookup "abf" "a" 2020 4) as (Hd & Hf & Hp & Hy & Hm).
  destruct (naming_and_units ∅ (mock_field "abf" "a" 2020 4)) as (_ & _ & Hok).
  apply (Hok _ _ "abf" "a" 2020 4 Hd Hf Hp Hy Hm).
  - left. reflexivity.
  - left. reflexivity.
  - lia.
  - lia.
Defined.

(** ** C8: no partial cube *)

(** C8.  [to_cube] returns a cube only for a field whose format is
    ["abf"] or ["abl"], whatever its case, and whose period is ['a'] or
    ['b'].  For a field with any other format it raises the
    [TranslationError] of an unknown format, and for one with a known
    format and any other period the [TranslationError] of an unknown
    period; it then returns no cube, and the field it leaves holds only
    its own attributes. *)
Theorem build_atomicity fs (self : pyobj) :
  (forall cube field,
     ABFField.to_cube fs self = (inr cube, field) ->
     exists tag p,
       field !! "format" = Some (VStr tag) /\
       (Py.lower tag = "abf" \/ Py.lower tag = "abl") /\
       field !! "period" = Some (VStr p) /\
       (p = "a" \/ p = "b")) /\
  (forall d field tag,
     ABFField.getattr fs "data" self = (inr d, field) ->
     field !! "format" = Some (VStr tag) ->
     Py.lower tag <> "abf" -> Py.lower tag <> "abl" ->
     exists e,
       ABFField.to_cube fs self = (inl e, field) /\ UnknownFormatError e) /\
  (forall d field tag period,
     ABFField.getattr fs "data" self = (inr d, field) ->
     field !! "format" = Some (VStr tag) ->
     Py.lower tag = "abf" \/ Py.lower tag = "abl" ->
     field !! "period" = Some period ->
     period <> VStr "a" -> period <> VStr "b" ->
     exists e,
       ABFField.to_cube fs self = (inl e, field) /\ UnknownPeriodError e).
Proof.
  split; [|split].
  - intros cube field Hcube.
    destruct (to_cube_inv _ _ _ _ Hcube)
      as (d & tag & p & y & m & _ & _ & Hf & Hp & _ & _ & _ & _ &
          name & first & last & Hname & Hdays & _).
    exists tag, p. repeat (split; [done|]).
    split; [|split; [done|]].
    + apply name_of_tag_spec in Hname. naive_solver.
    + apply days_of_period_spec in Hdays. naive_solver.
  - intros d field tag Hget Hf Habf Habl.
    eexists. split.
    + eapply to_cube_bad_format; eauto. by apply name_of_tag_none.
    + by exists tag.
  - intros d field tag period Hget Hf Htag Hp Ha Hb.
    assert (Hname : exists name, name_of_tag tag = Some name).
    { unfold name_of_tag. destruct Htag as [->| ->]; by eexists. }
    destruct Hname as [name Hname].
    eexists. split.
    + eapply to_cube_bad_period; eauto.
    + by exists period.
Qed.

(** A field with format ["xyz"], and one with period ['c']. *)
Lemma build_atomicity_witness :
  (exists e,
     ABFField.to_cube ∅ (mock_field "xyz" "a" 2020 4)
     = (inl e, mock_field "xyz" "a" 2020 4) /\ UnknownFormatError e) /\
  (exists e,
     ABFField.to_cube ∅ (mock_field "ABL" "c" 2020 4)
     = (inl e, mock_field "ABL" "c" 2020 4) /\ UnknownPeriodError e).
Proof.
  split.
  - destruct (mock_field_lookup "xyz" "a" 2020 4) as (Hd & Hf & _).
    destruct (build_atomicity ∅ (mock_field "xyz" "a" 2020 4)) as (_ & Hformat & _).
    apply (Hformat _ _ "xyz" Hd Hf); discriminate.
  - destruct (mock_field_lookup "ABL" "c" 2020 4) as (Hd & Hf & Hp & _).
    destruct (build_atomicity ∅ (mock_field "ABL" "c" 2020 4)) as (_ & _ & Hperiod).
    apply (Hperiod _ _ "ABL" (VStr "c") Hd Hf (or_intror eq_refl) Hp); discriminate.
Defined.

(** ** C2: the time coordinate *)

(** C2.  A cube [to_cube] returns has one scalar coordinate, the time,
    in days since 0001-01-01, the proleptic Gregorian ordinal minus one:
    for period ['a'] its point is the day count of the 1st of (year,
    month) and its bounds are the day counts of the 1st and the 15th; for
    period ['b'] its point is the day count of the 16th and its bounds are
    the day counts of the 16th and of the last day of the month,
    inclusive.  The last day is the day before the 1st of the next month,
    so February has 29 days in leap years.  [to_cube] does return such a
    cube for every year in 1..9999 and month in 1..12.  For April 2020 the
    values are 737515, [737515, 737529] and 737530, [737530, 737544]. *)
Theorem time_coordinate fs (self : pyobj) :
  (forall cube field,
     ABFField.to_cube fs self = (inr cube, field) ->
     exists p y m,
       field !! "period" = Some (VStr p) /\
       field !! "year" = Some (VInt y) /\
       field !! "month" = Some (VInt m) /\
       1 <= y <= 9999 /\ 1 <= m <= 12 /\
       ((p = "a" /\
         Iris.cube_aux_coords cube
         = [time_coord (days_since_epoch y m 1) (days_since_epoch y m 15)]) \/
        (p = "b" /\
         Iris.cube_aux_coords cube
         = [time_coord (days_since_epoch y m 16)
              (days_since_epoch y m (Datetime.days_in_month y m))]))) /\
  (forall d field tag p y m,
     ABFField.getattr fs "data" self = (inr d, field) ->
     field !! "format" = Some (VStr tag) ->
     field !! "period" = Some (VStr p) ->
     field !! "year" = Some (VInt y) ->
     field !! "month" = Some (VInt m) ->
     Py.lower tag = "abf" \/ Py.lower tag = "abl" ->
     p = "a" \/ p = "b" ->
     1 <= y <= 9999 -> 1 <= m <= 12 ->
     exists cube, ABFField.to_cube fs self = (inr cube, field)) /\
  (forall y m,
     1 <= m <= 12 ->
     days_since_epoch (next_month_first y m).1 (next_month_first y m).2 1
     = days_since_epoch y m (Datetime.days_in_month y m) + 1 /\
     16 <= Datetime.days_in_month y m /\
     Calendar.monthrange_ndays y m = inr (Datetime.days_in_month y m)) /\
  days_since_epoch 1 1 1 = 0 /\
  (Datetime.days_in_month 1985 2 = 28 /\ Datetime.days_in_month 1988 2 = 29 /\
   Datetime.days_in_month 1900 2 = 28 /\ Datetime.days_in_month 2000 2 = 29) /\
  (time_coord (days_since_epoch 2020 4 1) (days_since_epoch 2020 4 15)
   = time_coord 737515 737529 /\
   time_coord (days_since_epoch 2020 4 16)
     (days_since_epoch 2020 4 (Datetime.days_in_month 2020 4))
   = time_coord 737530 737544).
Proof.
  split; [|split; [|split; [|split; [|split]]]].
  - intros cube field Hcube.
    destruct (to_cube_inv _ _ _ _ Hcube)
      as (d & tag & p & y & m & _ & _ & _ & Hp & Hy & Hm & Hyr & Hmr &
          name & first & last & _ & Hdays & ->).
    exists p, y, m. repeat (split; [done|]).
    cbn [built_cube Iris.cube_aux_coords].
    apply days_of_period_spec in Hdays as [(-> & -> & ->)|(-> & -> & ->)];
      [left|right]; done.
  - intros d field tag p y m Hget Hf Hp Hy Hm Htag Hper Hyr Hmr.
    assert (Hname : exists name, name_of_tag tag = Some name).
    { unfold name_of_tag. destruct Htag as [->| ->]; by eexists. }
    assert (Hdays : exists first last, days_of_period p y m = Some (first, last)).
    { destruct Hper as [->| ->]; by do 2 eexists. }
    destruct Hname as [name Hname]. destruct Hdays as (first & last & Hdays).
    eexists. by eapply to_cube_ok.
  - intros y m Hm. destruct (monthrange_ok y m Hm) as [Hrange Hdim].
    split; [|split; [lia|done]].
    unfold days_since_epoch. rewrite last_day_of_month by done. lia.
  - reflexivity.
  - repeat split; reflexivity.
  - split; reflexivity.
Qed.

(** The two fields of the tests: April 2020, periods ['a'] and ['b']. *)
Lemma time_coordinate_witness :
  (exists cube,
     ABFField.to_cube ∅ (mock_field "abf" "a" 2020 4)
     = (inr cube, mock_field "abf" "a" 2020 4) /\
     Iris.cube_aux_coords cube = [time_coord 737515 737529]) /\
  (exists cube,
     ABFField.to_cube ∅ (mock_field "abl" "b" 2020 4)
     = (inr cube, mock_field "abl" "b" 2020 4) /\
     Iris.cube_aux_coords cube = [time_coord 737530 737544]).
Proof.
  split.
  - destruct (mock_field_lookup "abf" "a" 2020 4) as (Hd & Hf & Hp & Hy & Hm).
    destruct (time_coordinate ∅ (mock_field "abf" "a" 2020 4)) as (Hpost & Hok & _).
    destruct (Hok _ _ "abf" "a" 2020 4 Hd Hf Hp Hy Hm) as [cube Hcube];
      [by left|by left|lia|lia|].
    exists cube. split; [exact Hcube|].
    destruct (Hpost _ _ Hcube) as (p & y & m & Hp' & Hy' & Hm' & _ & _ & Hcoord).
    rewrite Hp in Hp'. rewrite Hy in Hy'. rewrite Hm in Hm'.
    injection Hp' as <-. injection Hy' as <-. injection Hm' as <-.
    destruct Hcoord as [[_ ->]|[Hb _]]; [reflexivity|discriminate Hb].
  - destruct (mock_field_lookup "abl" "b" 2020 4) as (Hd & Hf & Hp & Hy & Hm).
    destruct (time_coordinate ∅ (mock_field "abl" "b" 2020 4)) as (Hpost & Hok & _).
    destruct (Hok _ _ "abl" "b" 2020 4 Hd Hf Hp Hy Hm) as [cube Hcube];
      [by right|by right|lia|lia|].
    exists cube. split; [exact Hcube|].
    destruct (Hpost _ _ Hcube) as (p & y & m & Hp' & Hy' & Hm' & _ & _ & Hcoord).
    rewrite Hp in Hp'. rewrite Hy in Hy'. rewrite Hm in Hm'.
    injection Hp' as <-. injection Hy' as <-. injection Hm' as <-.
    destruct Hcoord as [[Ha _]|[_ ->]]; [discriminate Ha|reflexivity].
Defined.


(** ** C9: the batch loader *)

Section LoaderProperties.

Variable fs : gmap string (list byte).
Variable glob : string -> list string.
Variables Callback World : Type.
Variable run_callback :
  Callback -> Iris.Cube -> pyobj -> string -> World -> result (option Iris.Cube) * World.

Lemma load_file_no_callback filename cube field w :
  decode_file fs filename = inr (cube, field) ->
  load_file fs run_callback None filename w = (inr (Some cube), [], w).
Proof.
  unfold decode_file, load_file.
  destruct (ABFField.__init__ filename) as [e|h]; [done|].
  destruct (ABFField.to_cube fs h) as [[e|c] f]; [done|].
  by intros [= -> ->].
Qed.

Lemma load_file_callback cb filename cube field w :
  decode_file fs filename = inr (cube, field) ->
  load_file fs run_callback (Some cb) filename w
  = ((run_callback cb cube field filename w).1, [(cube, field, filename)],
     (run_callback cb cube field filename w).2).
Proof.
  unfold decode_file, load_file.
  destruct (ABFField.__init__ filename) as [e|h]; [done|].
  destruct (ABFField.to_cube fs h) as [[e|c] f]; [done|].
  intros [= -> ->]. by destruct (run_callback cb cube field filename w).
Qed.

Lemma load_filenames_no_callback filenames decoded w :
  Forall2 (fun filename cf => decode_file fs filename = inr cf) filenames decoded ->
  load_filenames fs run_callback None filenames w
  = ({| yielded := decoded.*1; calls := []; raised := None |}, w).
Proof.
  induction 1 as [|filename [cube field] filenames decoded Hdec _ IH]; [done|].
  cbn [load_filenames].
  rewrite (load_file_no_callback _ _ _ _ Hdec), IH. reflexivity.
Qed.

Lemma load_filenames_callback cb filenames log outs w w' :
  callback_run fs run_callback cb w filenames log outs w' ->
  load_filenames fs run_callback (Some cb) filenames w
  = ({| yielded := omap id outs; calls := log; raised := None |}, w').
Proof.
  induction 1 as [|w filename cube field out w1 rest log outs w2 Hdec Hcb _ IH];
    [done|].
  cbn [load_filenames].
  rewrite (load_file_callback _ _ _ _ _ Hdec), Hcb. cbn [fst snd].
  rewrite IH. by destruct out.
Qed.

Lemma load_filenames_app callback l1 l2 w :
  load_filenames fs run_callback callback (l1 ++ l2) w
  = let (g, w') := load_filenames fs run_callback callback l1 w in
    match raised g with
    | Some _ => (g, w')
    | None =>
        let (g', w'') := load_filenames fs run_callback callback l2 w' in
        ({| yielded := yielded g ++ yielded g';
            calls := calls g ++ calls g';
            raised := raised g' |}, w'')
    end.
Proof.
  revert w. induction l1 as [|filename l1 IH]; intros w.
  - cbn. by destruct (load_filenames fs run_callback callback l2 w) as [[] ?].
  - cbn [app load_filenames].
    destruct (load_file fs run_callback callback filename w) as [[[e|out] log] w1]; [done|].
    rewrite IH.
    destruct (load_filenames fs run_callback callback l1 w1) as [g w2].
    cbn [raised].
    destruct (raised g) as [e|] eqn:Hraised.
    + by rewrite Hraised.
    + destruct (load_filenames fs run_callback callback l2 w2) as [g' w3].
      cbn [yielded calls raised]. rewrite <- (assoc_L (++)).
      by destruct out.
Qed.

(** The two nested loops go through the matched files in order. *)
Lemma load_filespecs_flat callback specs w :
  load_filespecs fs glob run_callback callback specs w
  = load_filenames fs run_callback callback (concat (glob <$> specs)) w.
Proof.
  revert w. induction specs as [|filespec specs IH]; intros w; [done|].
  cbn [load_filespecs fmap list_fmap concat].
  rewrite load_filenames_app.
  destruct (load_filenames fs run_callback callback (glob filespec) w) as [g w1].
  destruct (raised g); [done|]. by rewrite IH.
Qed.

Lemma callback_run_calls cb w filenames log outs w' :
  callback_run fs run_callback cb w filenames log outs w' ->
  log.*2 = filenames /\
  Forall (fun call : callback_call =>
            decode_file fs call.2 = inr (call.1.1, call.1.2)) log /\
  length outs = length filenames.
Proof.
  induction 1 as [|w filename cube field out w1 rest log outs w2 Hdec Hcb _ IH].
  - by repeat split.
  - destruct IH as (IH1 & IH2 & IH3). repeat split.
    + cbn. by rewrite IH1.
    + by constructor.
    + cbn. by rewrite IH3.
Qed.

Lemma yielded_suppressed (outs : list (option Iris.Cube)) :
  (length (omap id outs) + suppressed outs = length outs)%nat.
Proof.
  induction outs as [|[cube|] outs IH]; cbn; [done| |]; lia.
Qed.

(** C9.  [load_cubes fs glob run_callback] treats a single file specification as the list of
    that one specification.  When the N files the specifications match
    all decode and no callback is given, it yields their N cubes in the
    order of the files.  When a callback is given, it is called once for
    each file, in order, with the cube, the field and the file name; a
    [None] result yields nothing for that file and any other result is
    yielded in place of the cube, so that the number of cubes yielded is N
    less the number of [None] results, N - 1 for one. *)
Theorem batch_loader (specs : filespecs) :
  (forall filespec callback w,
     load_cubes fs glob run_callback (OneSpec filespec) callback w
     = load_cubes fs glob run_callback (ManySpecs [filespec]) callback w) /\
  (forall decoded w,
     Forall2 (fun filename cf => decode_file fs filename = inr cf)
       (matched glob specs) decoded ->
     load_cubes fs glob run_callback specs None w
     = ({| yielded := decoded.*1; calls := []; raised := None |}, w) /\
     length decoded.*1 = length (matched glob specs)) /\
  (forall cb w log outs w',
     callback_run fs run_callback cb w (matched glob specs) log outs w' ->
     load_cubes fs glob run_callback specs (Some cb) w
     = ({| yielded := omap id outs; calls := log; raised := None |}, w') /\
     log.*2 = matched glob specs /\
     Forall (fun call : callback_call =>
               decode_file fs call.2 = inr (call.1.1, call.1.2)) log /\
     (length (omap id outs) + suppressed outs = length (matched glob specs))%nat /\
     (suppressed outs = 1%nat ->
      length (omap id outs) = (length (matched glob specs) - 1)%nat)).
Proof.
  split; [done|]. split.
  - intros decoded w Hdec. split.
    + unfold load_cubes. rewrite load_filespecs_flat.
      by apply load_filenames_no_callback.
    + rewrite length_fmap. symmetry. by eapply Forall2_length.
  - intros cb w log outs w' Hrun.
    destruct (callback_run_calls _ _ _ _ _ _ Hrun) as (Hlog & Hcalls & Hlen).
    pose proof (yielded_suppressed outs) as Hcount.
    split; [|repeat split; try done; lia].
    unfold load_cubes. rewrite load_filespecs_flat.
    by apply load_filenames_callback.
Qed.

End LoaderProperties.

Lemma decode_file_ok fs (filename : string) (h field : pyobj) cube :
  ABFField.__init__ filename = inr h ->
  ABFField.to_cube fs h = (inr cube, field) ->
  decode_file fs filename = inr (cube, field).
Proof. intros Hinit Hcube. unfold decode_file. by rewrite Hinit, Hcube. Qed.

(** The loader test: two file specifications, each matching the file of
    the reader test, and a callback that suppresses its first result. *)
Lemma batch_loader_witness :
  exists cube field,
    decode_file {[ "/path/to/my-prefix12-9876marb-abf" := arange_file (4320 * 2160) ]}
      "/path/to/my-prefix12-9876marb-abf" = inr (cube, field) /\
    load_cubes {[ "/path/to/my-prefix12-9876marb-abf" := arange_file (4320 * 2160) ]}
      (fun _ => ["/path/to/my-prefix12-9876marb-abf"]) counting_callback
      (ManySpecs ["first-filename"; "second-filename"]) (Some tt) 0%nat
    = ({| yielded := [Iris.rename cube "CALLBACK_CUBE"];
          calls := [(cube, field, "/path/to/my-prefix12-9876marb-abf");
                    (cube, field, "/path/to/my-prefix12-9876marb-abf")];
          raised := None |}, 2%nat).
Proof.
  set (path := "/path/to/my-prefix12-9876marb-abf").
  set (fs := ({[ path := arange_file (4320 * 2160) ]} : gmap string (list byte))).
  destruct (getattr_data_ok fs (fresh path) path 12 9876 3 (arange_file (4320 * 2160))
              (fresh_no_data path) (fresh_filename path))
    as (grid & _ & _ & Hget).
  { vm_compute. reflexivity. }
  { vm_compute. reflexivity. }
  { vm_compute. reflexivity. }
  { apply lookup_singleton_eq. }
  { apply (arange_file_length (4320 * 2160)). lia. }
  destruct (loaded_lookup (fresh path) path 12 9876 3 grid)
    as (_ & Hyear & Hmonth & Hperiod & Hformat & _).
  assert (Hcube := to_cube_ok fs (fresh path) _ _ "abf" "b" 9876 3 "FAPAR" 16
                     (Datetime.days_in_month 9876 3)
                     Hget Hformat Hperiod Hyear Hmonth eq_refl eq_refl
                     ltac:(lia) ltac:(lia)).
  assert (Hdec := decode_file_ok fs path _ _ _ (init_ok path eq_refl) Hcube).
  eexists _, _. split; [exact Hdec|].
  destruct (batch_loader fs (fun _ => [path]) unit nat counting_callback
              (ManySpecs ["first-filename"; "second-filename"]))
    as (_ & _ & Hcallback).
  refine (proj1 (Hcallback tt 0%nat _ [None; Some _] 2%nat _)).
  eapply run_file; [exact Hdec|reflexivity|].
  eapply run_file; [exact Hdec|reflexivity|].
  apply run_done.
Defined.

(** ** C3: the spatial axes *)

Lemma axis_points_length (n origin : Z) :
  0 <= n -> Z.of_nat (length (ABFField.axis_points n origin)) = n.
Proof.
  intros Hn. unfold ABFField.axis_points. rewrite length_fmap. by apply arange_length.
Qed.

Lemma axis_points_lookup (n origin i : Z) :
  0 <= i < n ->
  ABFField.axis_points n origin !! Z.to_nat i = Some (axis_point origin i).
Proof.
  intros Hi. unfold ABFField.axis_points.
  rewrite list_lookup_fmap, arange_lookup by done. reflexivity.
Qed.

Lemma arange_elem (n i : Z) : 0 <= i < n -> In i (Np.arange n).
Proof.
  intros Hi. apply list_elem_of_In, list_elem_of_lookup.
  exists (Z.to_nat i). by apply arange_lookup.
Qed.

(** A check that ran over [np.arange(n)] holds at every index. *)
Lemma forallb_arange (check : Z -> bool) (n i : Z) :
  forallb check (Np.arange n) = true -> 0 <= i < n -> check i = true.
Proof.
  intros Hall Hi. rewrite forallb_forall in Hall. by apply Hall, arange_elem.
Qed.

Lemma pairwise_increasing_lookup (l : list float) :
  pairwise_increasing l = true ->
  forall (i j : nat) a b,
    (i < j)%nat -> l !! i = Some a -> l !! j = Some b -> PrimFloat.ltb a b = true.
Proof.
  induction l as [|x l IH]; intros Hall i j a b Hij Ha Hb; [done|].
  cbn [pairwise_increasing] in Hall. apply andb_prop in Hall as [Hx Hl].
  destruct j as [|j]; [lia|]. cbn in Hb.
  destruct i as [|i].
  - cbn in Ha. injection Ha as <-.
    rewrite forallb_forall in Hx. apply Hx, list_elem_of_In, list_elem_of_lookup.
    by exists j.
  - cbn in Ha. apply (IH Hl i j); [lia|done|done].
Qed.

Lemma axis_increasing (n origin : Z) :
  pairwise_increasing (ABFField.axis_points n origin) = true ->
  forall i j,
    0 <= i -> i < j -> j < n ->
    PrimFloat.ltb (axis_point origin i) (axis_point origin j) = true.
Proof.
  intros Hall i j Hi Hij Hj.
  apply (pairwise_increasing_lookup _ Hall (Z.to_nat i) (Z.to_nat j)); [lia| |];
    apply axis_points_lookup; lia.
Qed.

(** C3.  With step = 1/12 in float64, the longitude points are the 4320
    values i*step + step/2 - 180 and the latitude points the 2160 values
    j*step + step/2 - 90, each computed in float64.  Both sequences are
    strictly increasing.  Their spacing is uniform up to the rounding of
    float64: point i is within 2^-45 of the exact (2i+1)/24 - 180
    (respectively (2j+1)/24 - 90), and the difference of two neighbours,
    computed in float64, is within 2^-44 of the step.  They run from
    -179.95833333333334 to 179.95833333333331 and from -89.95833333333333
    to 89.95833333333331.  In every cube [to_cube] returns, longitude is
    the coordinate of dimension 1 and latitude that of dimension 0. *)
Theorem spatial_axes :
  ABFField.step = (1 / 12)%float /\
  (Z.of_nat (length (ABFField.axis_points X_SIZE 180)) = 4320 /\
   forall i, 0 <= i < 4320 ->
     ABFField.axis_points X_SIZE 180 !! Z.to_nat i
     = Some (Np.float_of_Z i * ABFField.step + ABFField.step / 2 - 180)%float) /\
  (Z.of_nat (length (ABFField.axis_points Y_SIZE 90)) = 2160 /\
   forall j, 0 <= j < 2160 ->
     ABFField.axis_points Y_SIZE 90 !! Z.to_nat j
     = Some (Np.float_of_Z j * ABFField.step + ABFField.step / 2 - 90)%float) /\
  (forall i j, 0 <= i -> i < j -> j < 4320 ->
     PrimFloat.ltb (axis_point 180 i) (axis_point 180 j) = true) /\
  (forall i j, 0 <= i -> i < j -> j < 2160 ->
     PrimFloat.ltb (axis_point 90 i) (axis_point 90 j) = true) /\
  (forall i, 0 <= i < 4320 ->
     close_to (axis_point 180 i) (2 * i + 1 - 24 * 180) 45 = true) /\
  (forall j, 0 <= j < 2160 ->
     close_to (axis_point 90 j) (2 * j + 1 - 24 * 90) 45 = true) /\
  (forall i, 0 <= i < 4319 ->
     spacing_ok (axis_point 180 i) (axis_point 180 (i + 1)) = true) /\
  (forall j, 0 <= j < 2159 ->
     spacing_ok (axis_point 90 j) (axis_point 90 (j + 1)) = true) /\
  (axis_point 180 0 = (-179.95833333333334)%float /\
   axis_point 180 4319 = 179.95833333333331%float /\
   axis_point 90 0 = (-89.95833333333333)%float /\
   axis_point 90 2159 = 89.95833333333331%float) /\
  (Iris.dim_points ABFField.x_coord = ABFField.axis_points X_SIZE 180 /\
   Iris.dim_standard_name ABFField.x_coord = "longitude" /\
   Iris.dim_points ABFField.y_coord = ABFField.axis_points Y_SIZE 90 /\
   Iris.dim_standard_name ABFField.y_coord = "latitude") /\
  (forall fs (self field : pyobj) cube,
     ABFField.to_cube fs self = (inr cube, field) ->
     Iris.cube_dim_coords cube
     = [(Iris.guess_bounds ABFField.x_coord, 1); (Iris.guess_bounds ABFField.y_coord, 0)]).
Proof.
  split; [reflexivity|].
  split; [split; [by apply axis_points_length|]|].
  { intros i Hi. by rewrite axis_points_lookup. }
  split; [split; [by apply axis_points_length|]|].
  { intros j Hj. by rewrite axis_points_lookup. }
  split; [apply axis_increasing; vm_compute; reflexivity|].
  split; [apply axis_increasing; vm_compute; reflexivity|].
  split.
  { intros i Hi.
    apply (forallb_arange (fun i => close_to (axis_point 180 i) (2 * i + 1 - 24 * 180) 45)
             4320); [vm_compute; reflexivity|done]. }
  split.
  { intros j Hj.
    apply (forallb_arange (fun j => close_to (axis_point 90 j) (2 * j + 1 - 24 * 90) 45)
             2160); [vm_compute; reflexivity|done]. }
  split.
  { intros i Hi.
    apply (forallb_arange (fun i => spacing_ok (axis_point 180 i) (axis_point 180 (i + 1)))
             4319); [vm_compute; reflexivity|done]. }
  split.
  { intros j Hj.
    apply (forallb_arange (fun j => spacing_ok (axis_point 90 j) (axis_point 90 (j + 1)))
             2159); [vm_compute; reflexivity|done]. }
  split; [repeat split; vm_compute; reflexivity|].
  split; [repeat split|].
  intros fs self field cube Hcube.
  destruct (to_cube_inv _ _ _ _ Hcube)
    as (d & tag & p & y & m & _ & _ & _ & _ & _ & _ & _ & _ &
        name & first & last & _ & _ & ->).
  reflexivity.
Qed.

(** The longitude at index 4317, the column of the reader test, and the
    axes of the cube of the first cube test. *)
Lemma spatial_axes_witness :
  ABFField.axis_points X_SIZE 180 !! Z.to_nat 4317
  = Some (Np.float_of_Z 4317 * ABFField.step + ABFField.step / 2 - 180)%float /\
  PrimFloat.ltb (axis_point 180 4317) (axis_point 180 4318) = true /\
  exists cube,
    ABFField.to_cube ∅ (mock_field "abf" "a" 2020 4)
    = (inr cube, mock_field "abf" "a" 2020 4) /\
    Iris.cube_dim_coords cube
    = [(Iris.guess_bounds ABFField.x_coord, 1); (Iris.guess_bounds ABFField.y_coord, 0)].
Proof.
  destruct spatial_axes as (_ & [_ Hlon] & _ & Hinc & _ & _ & _ & _ & _ & _ & _ & Hdims).
  split; [apply Hlon; lia|]. split; [apply Hinc; lia|].
  destruct (mock_field_lookup "abf" "a" 2020 4) as (Hd & Hf & Hp & Hy & Hm).
  assert (Hcube := to_cube_ok ∅ _ _ _ "abf" "a" 2020 4 "FAPAR" 1 15
                     Hd Hf Hp Hy Hm eq_refl eq_refl ltac:(lia) ltac:(lia)).
  eexists. split; [exact Hcube|]. exact (Hdims _ _ _ _ Hcube).
Defined.

(** * Further properties of the module *)

(** ** Attribute access and the file system *)

(** [__getattr__] reads the file only for the key ["data"], and only while
    the field has no grid: in every other case its result does not depend
    on the files, it leaves the field as it is, and it is the entry of the
    dictionary, or [AttributeError] naming the key. *)
Theorem getattr_reads_only_for_missing_data fs fs' (self : pyobj) (key : string) :
  key <> "data" \/ is_Some (self !! "data") ->
  ABFField.__getattr__ fs key self = ABFField.__getattr__ fs' key self /\
  ABFField.__getattr__ fs key self
  = (match self !! key with
     | Some v => inr v
     | None => inl (AttributeError ("ABFField has no attribute '" +:+ key +:+ "'"))
     end, self).
Proof.
  intros Hcase.
  assert (Hno : forall fs0,
    ABFField.__getattr__ fs0 key self = ABFField.dict_getitem key self).
  { intros fs0. unfold ABFField.__getattr__.
    destruct Hcase as [Hkey|Hdata].
    - destruct (String.eqb_spec key "data") as [->|_]; [done|]. reflexivity.
    - rewrite (bool_decide_eq_true_2 _ Hdata), andb_false_r. reflexivity. }
  rewrite (Hno fs), (Hno fs'). split; [reflexivity|].
  unfold ABFField.dict_getitem. by destruct (self !! key).
Qed.

Lemma getattr_reads_only_for_missing_data_witness :
  ABFField.__getattr__ {[ "AVHRRBUVI01.1985feba.abl" := arange_file (4320 * 2160) ]}
    "year" (fresh "AVHRRBUVI01.1985feba.abl")
  = (inl (AttributeError "ABFField has no attribute 'year'"),
     fresh "AVHRRBUVI01.1985feba.abl").
Proof.
  destruct (getattr_reads_only_for_missing_data
              {[ "AVHRRBUVI01.1985feba.abl" := arange_file (4320 * 2160) ]} ∅
              (fresh "AVHRRBUVI01.1985feba.abl") "year") as [_ ->].
  - left. discriminate.
  - by rewrite fresh_lookup.
Defined.

Lemma to_cube_loaded_pure fs fs' (s : pyobj) d :
  s !! "data" = Some d ->
  ABFField.to_cube fs s = ABFField.to_cube fs' s /\ (ABFField.to_cube fs s).2 = s.
Proof.
  intros Hd. unfold ABFField.to_cube, ABFField.period_days, ABFField.date_of.
  run_M. rewrite !(getattr_present _ _ _ _ Hd). run_M.
  repeat cube_step; split; reflexivity.
Qed.

(** Once an access to the grid has returned, the field holds the grid:
    every later attribute access and [to_cube] give the same result
    whatever the files have become, and leave the field as it is.  The
    file is read once. *)
Theorem loaded_field_never_reads_again fs fs' (self field : pyobj) d :
  ABFField.getattr fs "data" self = (inr d, field) ->
  ABFField.getattr fs' "data" field = (inr d, field) /\
  (forall key,
     ABFField.getattr fs' key field = ABFField.getattr fs key field /\
     (ABFField.getattr fs' key field).2 = field) /\
  ABFField.to_cube fs' field = ABFField.to_cube fs field /\
  (ABFField.to_cube fs' field).2 = field /\
  ABFField.to_cube fs self = ABFField.to_cube fs' field.
Proof.
  intros Hget.
  pose proof (getattr_data_inv _ _ _ _ Hget) as Hd. cbn in Hd.
  split; [by apply getattr_present|]. split.
  { intros key. destruct (String.eqb_spec key "data") as [->|Hkey].
    - by rewrite !(getattr_present _ _ _ _ Hd).
    - by rewrite !attr_loaded. }
  destruct (to_cube_loaded_pure fs' fs field d Hd) as [Hsame Hstate].
  repeat split; try done.
  by rewrite to_cube_load, Hget.
Qed.

(** The file of the reader test is read, then taken away. *)
Lemma loaded_field_never_reads_again_witness :
  exists grid field,
    ABFField.getattr {[ "/path/to/my-prefix12-9876marb-abf" := arange_file (4320 * 2160) ]}
      "data" (fresh "/path/to/my-prefix12-9876marb-abf") = (inr (VArray grid), field) /\
    ABFField.getattr ∅ "data" field = (inr (VArray grid), field).
Proof.
  destruct (getattr_data_ok
              {[ "/path/to/my-prefix12-9876marb-abf" := arange_file (4320 * 2160) ]}
              (fresh "/path/to/my-prefix12-9876marb-abf")
              "/path/to/my-prefix12-9876marb-abf" 12 9876 3 (arange_file (4320 * 2160))
              (fresh_no_data _) (fresh_filename _))
    as (grid & _ & _ & Hget).
  { vm_compute. reflexivity. }
  { vm_compute. reflexivity. }
  { vm_compute. reflexivity. }
  { apply lookup_singleton_eq. }
  { apply (arange_file_length (4320 * 2160)). lia. }
  eexists _, _. split; [exact Hget|].
  exact (proj1 (loaded_field_never_reads_again _ ∅ _ _ _ Hget)).
Defined.

(** ** What a cube holds *)

(** A cube [to_cube] returns wraps the very grid the field holds, has the
    one attribute [source = "Boston University"], two dimension
    coordinates, both in degrees on the same ellipsoid with axes
    6378137.0 and 6356752.31424 and both with guessed bounds, and one
    auxiliary coordinate, the time, whose bounds are in order. *)
Theorem cube_contents fs (self field : pyobj) cube :
  ABFField.to_cube fs self = (inr cube, field) ->
  field !! "data" = Some (Iris.cube_data cube) /\
  Iris.cube_attributes cube = {[ "source" := "Boston University" ]} /\
  length (Iris.cube_dim_coords cube) = 2%nat /\
  Forall (fun cd : Iris.DimCoord * Z =>
            Iris.dim_has_bounds cd.1 = true /\
            Iris.dim_units cd.1 = "degrees" /\
            Iris.dim_coord_system cd.1
            = {| Iris.semi_major_axis := 6378137.0%float;
                 Iris.semi_minor_axis := 6356752.31424%float |})
    (Iris.cube_dim_coords cube) /\
  exists start end_,
    Iris.cube_aux_coords cube = [time_coord start end_] /\ start <= end_.
Proof.
  intros Hcube.
  destruct (to_cube_inv _ _ _ _ Hcube)
    as (d & tag & p & y & m & _ & Hd & _ & _ & _ & _ & _ & Hmr &
        name & first & last & _ & Hdays & ->).
  split; [exact Hd|]. split; [reflexivity|]. split; [reflexivity|].
  split; [by repeat constructor|].
  do 2 eexists. split; [reflexivity|].
  destruct (monthrange_ok y m Hmr) as [_ Hdim].
  apply days_of_period_spec in Hdays as [(_ & -> & ->)|(_ & -> & ->)];
    unfold days_since_epoch, Datetime.ymd2ord; lia.
Qed.

Lemma cube_contents_witness :
  exists cube,
    ABFField.to_cube ∅ (mock_field "abl" "b" 2020 4)
    = (inr cube, mock_field "abl" "b" 2020 4) /\
    Iris.cube_data cube = VStr "DATA" /\
    Iris.cube_attributes cube = {[ "source" := "Boston University" ]}.
Proof.
  destruct (mock_field_lookup "abl" "b" 2020 4) as (Hd & Hf & Hp & Hy & Hm).
  assert (Hcube := to_cube_ok ∅ _ _ _ "abl" "b" 2020 4 "leaf_area_index" 16
                     (Datetime.days_in_month 2020 4)
                     Hd Hf Hp Hy Hm eq_refl eq_refl ltac:(lia) ltac:(lia)).
  eexists. split; [exact Hcube|].
  destruct (cube_contents _ _ _ _ Hcube) as (_ & Hattr & _).
  split; [reflexivity|exact Hattr].
Defined.

(** ** Years without a date *)




(** ** Half months *)

(** The intervals of the cubes tile the calendar.  For the fields of the
    two periods of a month and of period ['a'] of the month after, the
    cubes' time bounds [s, e] satisfy: the first half has 15 days, the
    second begins the day after the first ends and has 13 to 16 days, and
    the first half of the next month begins the day after the second
    ends; each point is the start of its bounds. *)
Theorem half_months_tile fs (sa sb sn fa fb fn : pyobj) ca cb cn (y m : Z) :
  ABFField.to_cube fs sa = (inr ca, fa) ->
  ABFField.to_cube fs sb = (inr cb, fb) ->
  ABFField.to_cube fs sn = (inr cn, fn) ->
  fa !! "period" = Some (VStr "a") -> fa !! "year" = Some (VInt y) ->
  fa !! "month" = Some (VInt m) ->
  fb !! "period" = Some (VStr "b") -> fb !! "year" = Some (VInt y) ->
  fb !! "month" = Some (VInt m) ->
  fn !! "period" = Some (VStr "a") ->
  fn !! "year" = Some (VInt (next_month_first y m).1) ->
  fn !! "month" = Some (VInt (next_month_first y m).2) ->
  exists s1 e1 s2 e2 s3 e3,
    Iris.cube_aux_coords ca = [time_coord s1 e1] /\
    Iris.cube_aux_coords cb = [time_coord s2 e2] /\
    Iris.cube_aux_coords cn = [time_coord s3 e3] /\
    e1 = s1 + 14 /\ s2 = e1 + 1 /\ s2 + 12 <= e2 <= s2 + 15 /\ s3 = e2 + 1.
Proof.
  intros Ha Hb Hn Hap Hay Ham Hbp Hby Hbm Hnp Hny Hnm.
  destruct (to_cube_inv _ _ _ _ Ha)
    as (? & ? & pa & ya & ma & _ & _ & _ & Hap' & Hay' & Ham' & _ & Hmr &
        ? & fa1 & la1 & _ & Hda & ->).
  destruct (to_cube_inv _ _ _ _ Hb)
    as (? & ? & pb & yb & mb & _ & _ & _ & Hbp' & Hby' & Hbm' & _ & _ &
        ? & fb1 & lb1 & _ & Hdb & ->).
  destruct (to_cube_inv _ _ _ _ Hn)
    as (? & ? & pn & yn & mn & _ & _ & _ & Hnp' & Hny' & Hnm' & _ & _ &
        ? & fn1 & ln1 & _ & Hdn & ->).
  simplify_eq.
  apply days_of_period_spec in Hda as [(_ & -> & ->)|(? & _)]; [|done].
  apply days_of_period_spec in Hdb as [(? & _)|(_ & -> & ->)]; [done|].
  apply days_of_period_spec in Hdn as [(_ & -> & ->)|(? & _)]; [|done].
  do 6 eexists. repeat (split; [reflexivity|]).
  destruct (monthrange_ok y m Hmr) as [_ Hdim].
  pose proof (last_day_of_month y m Hmr) as Hlast.
  unfold days_since_epoch, Datetime.ymd2ord in *. lia.
Qed.

(** April 2020 and the first half of May. *)
Lemma half_months_tile_witness :
  exists s1 e1 s2 e2 s3 e3,
    (exists ca, ABFField.to_cube ∅ (mock_field "abf" "a" 2020 4)
                = (inr ca, mock_field "abf" "a" 2020 4) /\
                Iris.cube_aux_coords ca = [time_coord s1 e1]) /\
    (exists cb, ABFField.to_cube ∅ (mock_field "abf" "b" 2020 4)
                = (inr cb, mock_field "abf" "b" 2020 4) /\
                Iris.cube_aux_coords cb = [time_coord s2 e2]) /\
    (exists cn, ABFField.to_cube ∅ (mock_field "abf" "a" 2020 5)
                = (inr cn, mock_field "abf" "a" 2020 5) /\
                Iris.cube_aux_coords cn = [time_coord s3 e3]) /\
    e1 = s1 + 14 /\ s2 = e1 + 1 /\ s2 + 12 <= e2 <= s2 + 15 /\ s3 = e2 + 1.
Proof.
  destruct (mock_field_lookup "abf" "a" 2020 4) as (Hd1 & Hf1 & Hp1 & Hy1 & Hm1).
  destruct (mock_field_lookup "abf" "b" 2020 4) as (Hd2 & Hf2 & Hp2 & Hy2 & Hm2).
  destruct (mock_field_lookup "abf" "a" 2020 5) as (Hd3 & Hf3 & Hp3 & Hy3 & Hm3).
  assert (H1 := to_cube_ok ∅ _ _ _ "abf" "a" 2020 4 "FAPAR" 1 15
                  Hd1 Hf1 Hp1 Hy1 Hm1 eq_refl eq_refl ltac:(lia) ltac:(lia)).
  assert (H2 := to_cube_ok ∅ _ _ _ "abf" "b" 2020 4 "FAPAR" 16
                  (Datetime.days_in_month 2020 4)
                  Hd2 Hf2 Hp2 Hy2 Hm2 eq_refl eq_refl ltac:(lia) ltac:(lia)).
  assert (H3 := to_cube_ok ∅ _ _ _ "abf" "a" 2020 5 "FAPAR" 1 15
                  Hd3 Hf3 Hp3 Hy3 Hm3 eq_refl eq_refl ltac:(lia) ltac:(lia)).
  destruct (half_months_tile ∅ _ _ _ _ _ _ _ _ _ 2020 4 H1 H2 H3
              Hp1 Hy1 Hm1 Hp2 Hy2 Hm2 Hp3 Hy3 Hm3)
    as (s1 & e1 & s2 & e2 & s3 & e3 & Ha & Hb & Hn & Hrest).
  exists s1, e1, s2, e2, s3, e3.
  split; [eexists; split; [exact H1|exact Ha]|].
  split; [eexists; split; [exact H2|exact Hb]|].
  split; [eexists; split; [exact H3|exact Hn]|].
  exact Hrest.
Defined.

(** ** What a failed read leaves behind *)

Lemma read_ok_decode fs (self : pyobj) filename v y m bytes grid :
  self !! "_filename" = Some (VStr filename) ->
  Py.int (version_token filename) = inr v ->
  Py.int (year_token filename) = inr y ->
  month_numbers !! month_token filename = Some m ->
  fs !! filename = Some bytes ->
  ABFField.decode (Np.u8 <$> bytes) = inr grid ->
  ABFField._read fs self = (inr tt, loaded self filename v y m grid).
Proof.
  intros Hfn Hv Hy Hm Hfile Hdec.
  read_start Hfn. rewrite Hv, Hy. run_M.
  read_month Hm.
  do 6 (rewrite lookup_insert_ne by done). rewrite Hfn. run_M.
  unfold Np.fromfile. rewrite Hfile. run_M. rewrite Hdec. reflexivity.
Qed.

(** The states [_read] can end in. *)
Lemma read_final_state fs (self : pyobj) filename :
  self !! "_filename" = Some (VStr filename) ->
  (ABFField._read fs self).2 = self \/
  (exists v, (ABFField._read fs self).2 = <["version" := VInt v]> self) \/
  (exists v y, (ABFField._read fs self).2 = parsed self filename v y) \/
  (exists v y m,
     (ABFField._read fs self).2 = <["month" := VInt m]> (parsed self filename v y)) \/
  (exists v y m grid, (ABFField._read fs self).2 = loaded self filename v y m grid).
Proof.
  intros Hfn.
  destruct (Py.int (version_token filename)) as [e|v] eqn:Hv.
  { left. by rewrite (read_version_fails fs self filename Hfn e Hv). }
  destruct (Py.int (year_token filename)) as [e|y] eqn:Hy.
  { right; left. exists v. by rewrite (read_year_fails fs self filename Hfn v e Hv Hy). }
  destruct (month_numbers !! month_token filename) as [m|] eqn:Hm; cycle 1.
  { right; right; left. exists v, y.
    by rewrite (read_month_fails fs self filename Hfn v y Hv Hy Hm). }
  destruct (fs !! filename) as [bytes|] eqn:Hfile; cycle 1.
  { right; right; right; left. exists v, y, m.
    by rewrite (read_no_file fs self filename Hfn v y m Hv Hy Hm Hfile). }
  destruct (Z.eq_dec (Z.of_nat (length bytes)) (X_SIZE * Y_SIZE)) as [Hlen|Hlen].
  - destruct (read_ok fs self filename Hfn v y m bytes Hv Hy Hm Hfile Hlen)
      as (grid & _ & Hok).
    right; right; right; right. exists v, y, m, grid. by rewrite Hok.
  - destruct (read_size_mismatch fs self filename Hfn v y m bytes Hv Hy Hm Hfile Hlen)
      as (msg & Hbad).
    right; right; right; left. exists v, y, m. by rewrite Hbad.
Qed.

Lemma read_frame fs (self : pyobj) (key : string) :
  key ∉ "data" :: metadata_keys ->
  (ABFField._read fs self).2 !! key = self !! key.
Proof.
  intros Hkey.
  assert (Hne : key <> "data" /\ key <> "version" /\ key <> "year" /\
                key <> "month" /\ key <> "period" /\ key <> "format").
  { repeat split; intros ->; apply Hkey; repeat ((by left) || right). }
  destruct Hne as (? & ? & ? & ? & ? & ?).
  destruct (self !! "_filename") as [[z|filename|a]|] eqn:Hfn;
    try (unfold ABFField._read; run_M; rewrite Hfn; reflexivity).
  destruct (read_final_state fs self filename Hfn)
    as [->|[[v ->]|[(v & y & ->)|[(v & y & m & ->)|(v & y & m & grid & ->)]]]];
    unfold loaded, parsed; by simplify_map_eq.
Qed.

(** [_read] assigns [version], [year], [month], [period], [format] and
    [data], in that order, and nothing else: every other attribute, the
    file name among them, is as before, whether it returns or raises.
    What it has assigned when it raises stays: when the month token is
    unknown the field keeps the parsed version and year, and its [month]
    is the three characters of the name, not a number; when the file is
    missing or has the wrong size the month is the number and there is no
    grid. *)
Theorem read_assigns_in_order fs (self : pyobj) (filename : string) :
  self !! "_filename" = Some (VStr filename) ->
  (forall key, key ∉ "data" :: metadata_keys ->
     (ABFField._read fs self).2 !! key = self !! key) /\
  (forall e, Py.int (version_token filename) = inl e ->
     ABFField._read fs self = (inl e, self)) /\
  (forall v e,
     Py.int (version_token filename) = inr v ->
     Py.int (year_token filename) = inl e ->
     ABFField._read fs self = (inl e, <["version" := VInt v]> self)) /\
  (forall v y,
     Py.int (version_token filename) = inr v ->
     Py.int (year_token filename) = inr y ->
     month_numbers !! month_token filename = None ->
     (ABFField._read fs self).1 = inl (KeyError (month_token filename)) /\
     (ABFField._read fs self).2 !! "version" = Some (VInt v) /\
     (ABFField._read fs self).2 !! "year" = Some (VInt y) /\
     (ABFField._read fs self).2 !! "month" = Some (VStr (month_token filename)) /\
     (ABFField._read fs self).2 !! "period" = Some (VStr (period_token filename)) /\
     (ABFField._read fs self).2 !! "format" = Some (VStr (format_token filename)) /\
     (ABFField._read fs self).2 !! "data" = self !! "data") /\
  (forall v y m,
     Py.int (version_token filename) = inr v ->
     Py.int (year_token filename) = inr y ->
     month_numbers !! month_token filename = Some m ->
     fs !! filename = None ->
     (ABFField._read fs self).1 = inl (FileNotFoundError filename) /\
     (ABFField._read fs self).2 !! "month" = Some (VInt m) /\
     (ABFField._read fs self).2 !! "data" = self !! "data").
Proof.
  intros Hfn. split; [intros key Hkey; by apply read_frame|].
  split; [intros e Hv; exact (read_version_fails fs self filename Hfn e Hv)|].
  split; [intros v e Hv Hy; exact (read_year_fails fs self filename Hfn v e Hv Hy)|].
  split.
  - intros v y Hv Hy Hm.
    rewrite (read_month_fails fs self filename Hfn v y Hv Hy Hm).
    split; [reflexivity|]. cbn [snd].
    destruct (parsed_lookup self filename v y) as (? & ? & ? & ? & ? & ? & _).
    done.
  - intros v y m Hv Hy Hm Hfile.
    rewrite (read_no_file fs self filename Hfn v y m Hv Hy Hm Hfile).
    split; [reflexivity|]. cbn [snd]. split; [apply lookup_insert_eq|].
    rewrite lookup_insert_ne by done. apply parsed_lookup.
Qed.

(** A name whose month is ["xyz"]: the field is left with that text. *)
Lemma read_assigns_in_order_witness :
  (ABFField._read ∅ (fresh "AVHRRBUVI01.1985xyza.abl")).2 !! "month"
  = Some (VStr "xyz") /\
  (ABFField._read ∅ (fresh "AVHRRBUVI01.1985xyza.abl")).2 !! "year"
  = Some (VInt 1985).
Proof.
  destruct (read_assigns_in_order ∅ (fresh "AVHRRBUVI01.1985xyza.abl")
              "AVHRRBUVI01.1985xyza.abl" (fresh_filename _))
    as (_ & _ & _ & Hmonth & _).
  destruct (Hmonth 1 1985) as (_ & _ & Hy & Hm & _).
  - vm_compute. reflexivity.
  - vm_compute. reflexivity.
  - vm_compute. reflexivity.
  - split; [exact Hm|exact Hy].
Defined.

Lemma getattr_data_fail_state fs (self s1 : pyobj) e :
  ABFField.getattr fs "data" self = (inl e, s1) ->
  self !! "data" = None /\ s1 = (ABFField._read fs self).2 /\ s1 !! "data" = None.
Proof.
  intros Hget.
  destruct (getattr_data_inv _ _ _ _ Hget) as [Hs1 Hd].
  split; [done|]. split; [|done].
  rewrite (getattr_data_absent _ _ Hd) in Hget. revert Hget. run_M.
  destruct (ABFField._read fs self) as [[e'|[]] s'] eqn:Hread.
  - by intros [= _ <-].
  - destruct (s' !! "data"); by intros [= <-].
Qed.

(** A failed access to the grid is not remembered.  The field keeps its
    file name and has no grid, so the next access reads again: with the
    file then in place and a name that parses, it returns the decoded grid
    and the parsed fields. *)
Theorem failed_read_is_retried fs fs' (self s1 : pyobj) (filename : string)
    e v y m (bytes : list byte) :
  self !! "_filename" = Some (VStr filename) ->
  ABFField.getattr fs "data" self = (inl e, s1) ->
  Py.int (version_token filename) = inr v ->
  Py.int (year_token filename) = inr y ->
  month_numbers !! month_token filename = Some m ->
  fs' !! filename = Some bytes ->
  Z.of_nat (length bytes) = 4320 * 2160 ->
  exists grid field,
    decoded_grid bytes grid /\
    ABFField.getattr fs' "data" s1 = (inr (VArray grid), field) /\
    field !! "version" = Some (VInt v) /\
    field !! "year" = Some (VInt y) /\
    field !! "month" = Some (VInt m).
Proof.
  intros Hfn Hget Hv Hy Hm Hfile Hlen.
  destruct (getattr_data_fail_state _ _ _ _ Hget) as (_ & Hs1 & Hd1).
  assert (Hfn1 : s1 !! "_filename" = Some (VStr filename)).
  { rewrite Hs1, read_frame; [done|].
    intros Hin. repeat (apply elem_of_cons in Hin as [Hin|Hin]; [done|]).
    by apply elem_of_nil in Hin. }
  destruct (getattr_data_ok fs' s1 filename v y m bytes Hd1 Hfn1 Hv Hy Hm Hfile Hlen)
    as (grid & Hgrid & _ & Hget').
  exists grid, (loaded s1 filename v y m grid).
  split; [exact Hgrid|]. split; [exact Hget'|].
  destruct (loaded_lookup s1 filename v y m grid) as (? & ? & ? & _). done.
Qed.

(** The file of the reader test is absent at the first access. *)
Lemma failed_read_is_retried_witness :
  exists e s1 grid field,
    ABFField.getattr ∅ "data" (fresh "/path/to/my-prefix12-9876marb-abf") = (inl e, s1) /\
    ABFField.getattr {[ "/path/to/my-prefix12-9876marb-abf" := arange_file (4320 * 2160) ]}
      "data" s1 = (inr (VArray grid), field).
Proof.
  destruct (ABFField.getattr ∅ "data" (fresh "/path/to/my-prefix12-9876marb-abf"))
    as [[e|d] s1] eqn:Hget.
  - destruct (failed_read_is_retried ∅
                {[ "/path/to/my-prefix12-9876marb-abf" := arange_file (4320 * 2160) ]}
                _ s1 "/path/to/my-prefix12-9876marb-abf" e 12 9876 3
                (arange_file (4320 * 2160)) (fresh_filename _) Hget)
      as (grid & field & _ & Hget' & _).
    + vm_compute. reflexivity.
    + vm_compute. reflexivity.
    + vm_compute. reflexivity.
    + apply lookup_singleton_eq.
    + apply (arange_file_length (4320 * 2160)). lia.
    + exists e, s1, grid, field. split; [reflexivity|exact Hget'].
  - destruct (getattr_data_load_inv _ _ _ _ (fresh_no_data _) Hget)
      as (f & _ & _ & _ & bytes & _ & _ & _ & _ & _ & Hfile & _).
    by rewrite lookup_empty in Hfile.
Defined.

(** ** Reading twice *)

Lemma loaded_again (self : pyobj) filename v y m grid :
  loaded (loaded self filename v y m grid) filename v y m grid
  = loaded self filename v y m grid.
Proof.
  apply map_eq. intros key. unfold loaded, parsed.
  destruct (decide (key = "data")) as [->|?]; [by simplify_map_eq|].
  destruct (decide (key = "month")) as [->|?]; [by simplify_map_eq|].
  destruct (decide (key = "format")) as [->|?]; [by simplify_map_eq|].
  destruct (decide (key = "period")) as [->|?]; [by simplify_map_eq|].
  destruct (decide (key = "year")) as [->|?]; [by simplify_map_eq|].
  destruct (decide (key = "version")) as [->|?]; [by simplify_map_eq|].
  by simplify_map_eq.
Qed.

(** [_read] called again on a field it has read, with the file as it
    was, returns and leaves the field exactly as it is. *)
Theorem read_idempotent fs (self field : pyobj) :
  ABFField._read fs self = (inr tt, field) ->
  ABFField._read fs field = (inr tt, field).
Proof.
  intros Hread.
  destruct (read_inv _ _ _ _ Hread)
    as (filename & v & y & m & bytes & grid & Hfn & Hv & Hy & Hm & Hfile & Hlen & _ & _).
  destruct (decode_ok bytes Hlen) as (grid0 & Hdec & _).
  rewrite (read_ok_decode fs self filename v y m bytes grid0 Hfn Hv Hy Hm Hfile Hdec)
    in Hread.
  injection Hread as <-.
  assert (Hfn' : loaded self filename v y m grid0 !! "_filename" = Some (VStr filename)).
  { destruct (loaded_lookup self filename v y m grid0) as (_ & _ & _ & _ & _ & _ & ->).
    done. }
  rewrite (read_ok_decode fs _ filename v y m bytes grid0 Hfn' Hv Hy Hm Hfile Hdec).
  by rewrite loaded_again.
Qed.

Lemma read_idempotent_witness :
  exists field,
    ABFField._read {[ "/path/to/my-prefix12-9876marb-abf" := arange_file (4320 * 2160) ]}
      (fresh "/path/to/my-prefix12-9876marb-abf") = (inr tt, field) /\
    ABFField._read {[ "/path/to/my-prefix12-9876marb-abf" := arange_file (4320 * 2160) ]}
      field = (inr tt, field).
Proof.
  destruct (read_ok {[ "/path/to/my-prefix12-9876marb-abf" := arange_file (4320 * 2160) ]}
              (fresh "/path/to/my-prefix12-9876marb-abf")
              "/path/to/my-prefix12-9876marb-abf" (fresh_filename _) 12 9876 3
              (arange_file (4320 * 2160)))
    as (grid & _ & Hread).
  { vm_compute. reflexivity. }
  { vm_compute. reflexivity. }
  { vm_compute. reflexivity. }
  { apply lookup_singleton_eq. }
  { apply (arange_file_length (4320 * 2160)). lia. }
  eexists. split; [exact Hread|]. exact (read_idempotent _ _ _ Hread).
Defined.

(** ** Paths and file names *)

Lemma rfind_from_absent (ch : ascii) (i found : Z) (s : string) :
  occurs ch s = false -> Py.rfind_from ch i found s = found.
Proof.
  revert i found. induction s as [|c s IH]; intros i found Hs; [done|].
  cbn [occurs] in Hs. apply orb_false_elim in Hs as [Hc Hs].
  cbn [Py.rfind_from]. rewrite Hc. by apply IH.
Qed.

Lemma rfind_from_last (ch : ascii) (i found : Z) (a b : string) :
  occurs ch b = false ->
  Py.rfind_from ch i found (a +:+ String ch b) = i + Z.of_nat (String.length a).
Proof.
  intros Hb. revert i found. induction a as [|c a IH]; intros i found.
  - change (EmptyString +:+ String ch b) with (String ch b).
    cbn [Py.rfind_from String.length].
    rewrite Ascii.eqb_refl, rfind_from_absent by done. lia.
  - change (String c a +:+ String ch b) with (String c (a +:+ String ch b)).
    cbn [Py.rfind_from String.length]. rewrite IH. lia.
Qed.

Lemma drop_append (a b : string) : Py.drop (String.length a) (a +:+ b) = b.
Proof.
  induction a as [|c a IH]; [by destruct b|].
  change (String c a +:+ b) with (String c (a +:+ b)). exact IH.
Qed.

Lemma occurs_split (ch : ascii) (s : string) :
  occurs ch s = true ->
  exists a b, s = a +:+ String ch b /\ occurs ch b = false.
Proof.
  induction s as [|c s IH]; [done|]. cbn [occurs]. intros Hs.
  destruct (occurs ch s) eqn:Hrest.
  - destruct (IH eq_refl) as (a & b & -> & Hb). by exists (String c a), b.
  - rewrite orb_false_r in Hs. apply Ascii.eqb_eq in Hs as ->.
    by exists EmptyString, s.
Qed.

Lemma append_slash (dir name : string) :
  (dir +:+ "/") +:+ name = dir +:+ String "/" name.
Proof.
  induction dir as [|c dir IH]; [reflexivity|].
  change (String c ((dir +:+ "/") +:+ name) = String c (dir +:+ String "/" name)).
  by rewrite IH.
Qed.

Lemma length_append_slash (dir : string) :
  String.length (dir +:+ "/") = S (String.length dir).
Proof.
  induction dir as [|c dir IH]; [reflexivity|].
  change (S (String.length (dir +:+ "/")) = S (S (String.length dir))).
  by rewrite IH.
Qed.

Lemma basename_append (dir name : string) :
  occurs "/" name = false ->
  Posixpath.basename (dir +:+ String "/" name) = name.
Proof.
  intros Hname. unfold Posixpath.basename, Py.rfind, Py.slice_from.
  rewrite rfind_from_last by done.
  replace (Z.to_nat (0 + Z.of_nat (String.length dir) + 1))
    with (String.length (dir +:+ "/")) by (rewrite length_append_slash; lia).
  rewrite <- (append_slash dir name). apply drop_append.
Qed.

Lemma basename_no_slash (name : string) :
  occurs "/" name = false -> Posixpath.basename name = name.
Proof.
  intros Hname. unfold Posixpath.basename, Py.rfind, Py.slice_from.
  by rewrite rfind_from_absent.
Qed.

(** The base name is the part of the path after its last slash and holds
    no slash itself.  So the constructor and the fields [_read] parses
    depend on the last component only: under any directory, a name
    without a slash constructs exactly when it has 24 characters, and
    gives the same five tokens. *)
Theorem basename_is_last_component (dir name : string) :
  occurs "/" name = false ->
  basename_of (dir +:+ String "/" name) = name /\
  basename_of name = name /\
  (forall path, occurs "/" (basename_of path) = false) /\
  (Py.len name = 24 ->
     ABFField.__init__ (dir +:+ String "/" name) = inr (fresh (dir +:+ String "/" name))) /\
  (Py.len name <> 24 -> raises (ABFField.__init__ (dir +:+ String "/" name))) /\
  version_token (dir +:+ String "/" name) = version_token name /\
  year_token (dir +:+ String "/" name) = year_token name /\
  month_token (dir +:+ String "/" name) = month_token name /\
  period_token (dir +:+ String "/" name) = period_token name /\
  format_token (dir +:+ String "/" name) = format_token name.
Proof.
  intros Hname.
  assert (Hdir : basename_of (dir +:+ String "/" name) = name)
    by by apply basename_append.
  assert (Hself : basename_of name = name) by by apply basename_no_slash.
  split; [done|]. split; [done|]. split.
  { intros path. destruct (occurs "/" path) eqn:Hpath.
    - destruct (occurs_split _ _ Hpath) as (a & b & -> & Hb).
      unfold basename_of. by rewrite basename_append.
    - unfold basename_of. by rewrite basename_no_slash. }
  split; [intros Hlen; apply init_ok; by rewrite Hdir|].
  split; [intros Hlen; eexists; apply init_fails; by rewrite Hdir|].
  unfold version_token, year_token, month_token, period_token, format_token.
  by rewrite Hdir, Hself.
Qed.

(** The paths of the constructor tests. *)
Lemma basename_is_last_component_witness :
  basename_of "/path/to/abf/file/000000000000000000000000" = "000000000000000000000000" /\
  raises (ABFField.__init__ "/path/to/abf/file/too_short").
Proof.
  split.
  - exact (proj1 (basename_is_last_component "/path/to/abf/file"
                    "000000000000000000000000" eq_refl)).
  - destruct (basename_is_last_component "/path/to/abf/file" "too_short" eq_refl)
      as (_ & _ & _ & _ & Hbad & _).
    apply Hbad. vm_compute. discriminate.
Defined.

Lemma int_two_digits (n : Z) : 0 <= n < 100 -> Py.int (two_digits n) = inr n.
Proof.
  intros Hn.
  pose proof (forallb_arange
    (fun n => match Py.parse_int (two_digits n) with
              | Some r => r =? n
              | None => false
              end) 100 n) as Hcheck.
  cbv beta in Hcheck. unfold Py.int.
  destruct (Py.parse_int (two_digits n)) as [r|].
  - f_equal. apply Z.eqb_eq, Hcheck; [vm_compute; reflexivity|done].
  - discriminate Hcheck; [vm_compute; reflexivity|done].
Qed.

Lemma int_four_digits (n : Z) : 0 <= n < 10000 -> Py.int (four_digits n) = inr n.
Proof.
  intros Hn.
  pose proof (forallb_arange
    (fun n => match Py.parse_int (four_digits n) with
              | Some r => r =? n
              | None => false
              end) 10000 n) as Hcheck.
  cbv beta in Hcheck. unfold Py.int.
  destruct (Py.parse_int (four_digits n)) as [r|].
  - f_equal. apply Z.eqb_eq, Hcheck; [vm_compute; reflexivity|done].
  - discriminate Hcheck; [vm_compute; reflexivity|done].
Qed.

Ltac explode s H :=
  repeat (destruct s as [|? s]; [discriminate H|]; cbn in H;
          apply Nat.succ_inj in H);
  destruct s; [|discriminate H].

(** A file name written by the convention reads back: for any nine
    characters, a version from 0 to 99, a year from 0 to 9999, a
    three-character month, a period, a three-character tag and any two
    separators, the base name has 24 characters and [_read] parses the
    same version, year, month token, period and tag out of it; with a
    known month and the file in place the field gets these values. *)
Theorem filename_round_trip (filename prefix : string) (version : Z) (sep1 : ascii)
    (year : Z) (month : string) (period sep2 : ascii) (tag : string) :
  basename_of filename = abf_basename prefix version sep1 year month period sep2 tag ->
  String.length prefix = 9%nat ->
  String.length month = 3%nat ->
  String.length tag = 3%nat ->
  0 <= version < 100 ->
  0 <= year < 10000 ->
  Py.len (basename_of filename) = 24 /\
  Py.int (version_token filename) = inr version /\
  Py.int (year_token filename) = inr year /\
  month_token filename = month /\
  period_token filename = String period EmptyString /\
  format_token filename = tag /\
  forall fs m (bytes : list byte),
    month_numbers !! month = Some m ->
    fs !! filename = Some bytes ->
    Z.of_nat (length bytes) = 4320 * 2160 ->
    exists grid field,
      ABFField.__init__ filename = inr (fresh filename) /\
      ABFField.getattr fs "data" (fresh filename) = (inr (VArray grid), field) /\
      field !! "version" = Some (VInt version) /\
      field !! "year" = Some (VInt year) /\
      field !! "month" = Some (VInt m) /\
      field !! "period" = Some (VStr (String period EmptyString)) /\
      field !! "format" = Some (VStr tag).
Proof.
  intros Hbase Hprefix Hmonth Htag Hversion Hyear.
  explode prefix Hprefix. explode month Hmonth. explode tag Htag.
  assert (Hlen : Py.len (basename_of filename) = 24) by (by rewrite Hbase).
  assert (Hv : version_token filename = two_digits version)
    by (unfold version_token; by rewrite Hbase).
  assert (Hy : year_token filename = four_digits year)
    by (unfold year_token; by rewrite Hbase).
  assert (Hm : month_token filename = String a8 (String a9 (String a10 EmptyString)))
    by (unfold month_token; by rewrite Hbase).
  assert (Hp : period_token filename = String period EmptyString)
    by (unfold period_token; by rewrite Hbase).
  assert (Hf : format_token filename = String a11 (String a12 (String a13 EmptyString)))
    by (unfold format_token; by rewrite Hbase).
  assert (Hvi : Py.int (version_token filename) = inr version)
    by (rewrite Hv; by apply int_two_digits).
  assert (Hyi : Py.int (year_token filename) = inr year)
    by (rewrite Hy; by apply int_four_digits).
  repeat (split; [done|]).
  intros fs m bytes Hmn Hfile Hsize. rewrite <- Hm in Hmn.
  destruct (getattr_data_ok fs (fresh filename) filename version year m bytes
              (fresh_no_data _) (fresh_filename _) Hvi Hyi Hmn Hfile Hsize)
    as (grid & _ & _ & Hget).
  exists grid, (loaded (fresh filename) filename version year m grid).
  split; [by apply init_ok|]. split; [exact Hget|].
  destruct (loaded_lookup (fresh filename) filename version year m grid)
    as (? & ? & ? & Hper & Hfmt & _).
  rewrite Hp in Hper. rewrite Hf in Hfmt. done.
Qed.

(** The name of the docstring. *)
Lemma filename_round_trip_witness :
  abf_basename "AVHRRBUVI" 1 "." 1985 "feb" "a" "." "abl" = "AVHRRBUVI01.1985feba.abl" /\
  Py.int (version_token "/data/AVHRRBUVI01.1985feba.abl") = inr 1 /\
  Py.int (year_token "/data/AVHRRBUVI01.1985feba.abl") = inr 1985 /\
  format_token "/data/AVHRRBUVI01.1985feba.abl" = "abl".
Proof.
  split; [reflexivity|].
  destruct (filename_round_trip "/data/AVHRRBUVI01.1985feba.abl"
              "AVHRRBUVI" 1 "." 1985 "feb" "a" "." "abl")
    as (_ & Hv & Hy & _ & _ & Hf & _); try reflexivity; try lia.
  by repeat split.
Defined.

(** ** The layout of the grid *)

Lemma decode_inv (bytes : list byte) (grid : Np.MaskedArray) :
  ABFField.decode (Np.u8 <$> bytes) = inr grid ->
  Z.of_nat (length bytes) = 4320 * 2160 /\ decoded_grid bytes grid.
Proof.
  intros Hdec.
  destruct (Z.eq_dec (Z.of_nat (length bytes)) (X_SIZE * Y_SIZE)) as [Hlen|Hlen].
  - split; [exact Hlen|].
    destruct (decode_ok bytes Hlen) as (grid' & Hdec' & Hgrid).
    rewrite Hdec in Hdec'. by injection Hdec' as ->.
  - destruct (decode_shape_mismatch (Np.u8 <$> bytes)) as [msg Hmsg].
    + by rewrite length_fmap.
    + by rewrite Hdec in Hmsg.
Qed.

Lemma u8_range (b : byte) : 0 <= Np.u8 b <= 255.
Proof. unfold Np.u8. pose proof (Byte.to_N_bounded b). lia. Qed.

(** Decoding rearranges the bytes of the file and loses none: the byte at
    index k of the file is the cell of row 2159 - k mod 2160 and column
    k / 2160, and two different cells never show the same byte of the
    file. *)
Theorem grid_layout_is_a_bijection (bytes : list byte) (grid : Np.MaskedArray) :
  ABFField.decode (Np.u8 <$> bytes) = inr grid ->
  (forall k, 0 <= k < 4320 * 2160 ->
     0 <= 2159 - k mod 2160 < 2160 /\ 0 <= k / 2160 < 4320 /\
     exists b,
       bytes !! Z.to_nat k = Some b /\
       Np.item (Np.data grid) (2159 - k mod 2160) (k / 2160) = Some (Np.u8 b)) /\
  (forall r c, 0 <= r < 2160 -> 0 <= c < 4320 ->
     0 <= c * 2160 + (2159 - r) < 4320 * 2160 /\
     2159 - (c * 2160 + (2159 - r)) mod 2160 = r /\
     (c * 2160 + (2159 - r)) / 2160 = c) /\
  (forall r c r' c',
     0 <= r < 2160 -> 0 <= c < 4320 -> 0 <= r' < 2160 -> 0 <= c' < 4320 ->
     c * 2160 + (2159 - r) = c' * 2160 + (2159 - r') -> r = r' /\ c = c').
Proof.
  intros Hdec. destruct (decode_inv _ _ Hdec) as [Hlen (_ & _ & _ & Hcells)].
  split; [|split].
  - intros k Hk.
    assert (Hr : 0 <= 2159 - k mod 2160 < 2160)
      by (pose proof (Z.mod_pos_bound k 2160); lia).
    assert (Hc : 0 <= k / 2160 < 4320).
    { split; [apply Z.div_pos; lia|]. apply Z.div_lt_upper_bound; lia. }
    split; [done|]. split; [done|].
    destruct (Hcells _ _ Hr Hc) as (b & Hb & Hitem & _).
    exists b. split; [|done].
    replace k with (k / 2160 * 2160 + (2159 - (2159 - k mod 2160))) at 1; [done|].
    pose proof (Z.div_mod k 2160). lia.
  - intros r c Hr Hc. split; [lia|].
    replace (c * 2160 + (2159 - r)) with ((2159 - r) + c * 2160) by lia.
    rewrite Z.mod_add, Z.div_add by lia.
    rewrite Z.mod_small, Z.div_small by lia. lia.
  - intros r c r' c' Hr Hc Hr' Hc' Heq. lia.
Qed.

Lemma grid_layout_is_a_bijection_witness :
  exists grid,
    ABFField.decode (Np.u8 <$> arange_file (4320 * 2160)) = inr grid /\
    Np.item (Np.data grid) (2159 - 9326879 mod 2160) (9326879 / 2160) = Some 31.
Proof.
  destruct (decode_ok (arange_file (4320 * 2160))) as (grid & Hdec & _).
  { apply (arange_file_length (4320 * 2160)). lia. }
  exists grid. split; [exact Hdec|].
  destruct (grid_layout_is_a_bijection _ _ Hdec) as [Hcell _].
  destruct (Hcell 9326879) as (_ & _ & b & Hb & Hitem); [lia|].
  rewrite arange_file_lookup in Hb by lia. injection Hb as <-.
  rewrite u8_byte_of_Z in Hitem. exact Hitem.
Defined.

(** ** Percentages *)

(** Every cell of a decoded grid, once filled, is a percentage from 0 to
    100 or the fill value 255, and it is 255 exactly when the cell is
    masked: no masked cell can be taken for a percentage.  An unmasked
    cell is a value from 0 to 100.  (With the default fill value 999999
    of numpy, whose low byte is 63, it could.) *)
Theorem filled_grid_values (bytes : list byte) (grid : Np.MaskedArray) (r c : Z) :
  ABFField.decode (Np.u8 <$> bytes) = inr grid ->
  0 <= r < 2160 -> 0 <= c < 4320 ->
  exists v,
    Np.filled grid r c = Some v /\
    (0 <= v <= 100 \/ v = 255) /\
    (v = 255 <-> Np.ma_getitem grid r c = Some Np.Masked) /\
    (forall u, Np.ma_getitem grid r c = Some (Np.Value u) -> u = v /\ 0 <= u <= 100) /\
    Np.default_fill_value mod 256 = 63.
Proof.
  intros Hdec Hr Hc. destruct (decode_inv _ _ Hdec) as [_ (_ & _ & _ & Hcells)].
  destruct (Hcells r c Hr Hc) as (b & _ & _ & _ & -> & ->).
  pose proof (u8_range b) as Hb.
  destruct (Z.ltb_spec 100 (Np.u8 b)) as [Hlt|Hle].
  - exists 255. repeat split; try done; by right.
  - exists (Np.u8 b). split; [done|]. split; [left; lia|].
    split; [split; [lia|done]|]. split; [|done].
    intros u [= <-]. split; [done|lia].
Qed.

Lemma filled_grid_values_witness :
  exists grid v,
    ABFField.decode (Np.u8 <$> arange_file (4320 * 2160)) = inr grid /\
    Np.filled grid 0 0 = Some v /\ (0 <= v <= 100 \/ v = 255).
Proof.
  destruct (decode_ok (arange_file (4320 * 2160))) as (grid & Hdec & _).
  { apply (arange_file_length (4320 * 2160)). lia. }
  destruct (filled_grid_values _ _ 0 0 Hdec) as (v & Hv & Hrange & _); [lia|lia|].
  exists grid, v. split; [exact Hdec|]. split; [exact Hv|exact Hrange].
Defined.

(** ** The loader: failures, empty matches and concatenation *)

Section LoaderFurther.

Variable fs : gmap string (list byte).
Variable glob : string -> list string.
Variables Callback World : Type.
Variable run_callback :
  Callback -> Iris.Cube -> pyobj -> string -> World -> result (option Iris.Cube) * World.

Lemma load_file_fails callback filename e w :
  decode_file fs filename = inl e ->
  load_file fs run_callback callback filename w = (inl e, [], w).
Proof.
  unfold decode_file, load_file.
  destruct (ABFField.__init__ filename) as [e'|h]; [by intros [= ->]|].
  destruct (ABFField.to_cube fs h) as [[e'|c] f]; [by intros [= ->]|done].
Qed.

Lemma load_filenames_stops callback pre bad post e w :
  decode_file fs bad = inl e ->
  load_filenames fs run_callback callback (pre ++ bad :: post) w
  = let (g, w') := load_filenames fs run_callback callback pre w in
    match raised g with
    | Some _ => (g, w')
    | None => ({| yielded := yielded g; calls := calls g; raised := Some e |}, w')
    end.
Proof.
  intros Hbad. rewrite load_filenames_app.
  destruct (load_filenames fs run_callback callback pre w) as [g w'].
  destruct (raised g); [done|].
  cbn [load_filenames]. rewrite (load_file_fails _ _ _ _ Hbad).
  by rewrite !app_nil_r.
Qed.

(** [load_cubes] stops at the first file that does not decode: the cubes
    of the files before it have been yielded, the exception of that file
    ends the generator, and neither that file nor any later one reaches
    the callback. *)
Theorem loader_stops_at_first_failure (specs : filespecs) pre bad post e :
  matched glob specs = (pre ++ bad :: post)%list ->
  decode_file fs bad = inl e ->
  (forall decoded w,
     Forall2 (fun filename cf => decode_file fs filename = inr cf) pre decoded ->
     load_cubes fs glob run_callback specs None w
     = ({| yielded := decoded.*1; calls := []; raised := Some e |}, w)) /\
  (forall cb w log outs w',
     callback_run fs run_callback cb w pre log outs w' ->
     load_cubes fs glob run_callback specs (Some cb) w
     = ({| yielded := omap id outs; calls := log; raised := Some e |}, w') /\
     log.*2 = pre).
Proof.
  intros Hmatched Hbad. unfold matched in Hmatched. split.
  - intros decoded w Hdec.
    unfold load_cubes. rewrite load_filespecs_flat, Hmatched.
    rewrite (load_filenames_stops _ _ _ _ _ _ Hbad).
    by rewrite (load_filenames_no_callback _ _ _ _ _ _ _ Hdec).
  - intros cb w log outs w' Hrun. split.
    + unfold load_cubes. rewrite load_filespecs_flat, Hmatched.
      rewrite (load_filenames_stops _ _ _ _ _ _ Hbad).
      by rewrite (load_filenames_callback _ _ _ _ _ _ _ _ _ _ Hrun).
    + by destruct (callback_run_calls _ _ _ _ _ _ _ _ _ _ Hrun).
Qed.

(** When [run_callback] raises for a file, the generator ends with that
    exception: the results of the files before it have been yielded,
    nothing is yielded for the file, and no later file is decoded or
    passed to the callback. *)
Theorem loader_stops_when_callback_raises (specs : filespecs) pre filename post
    cb w log outs w1 cube field e w2 :
  matched glob specs = (pre ++ filename :: post)%list ->
  callback_run fs run_callback cb w pre log outs w1 ->
  decode_file fs filename = inr (cube, field) ->
  run_callback cb cube field filename w1 = (inl e, w2) ->
  load_cubes fs glob run_callback specs (Some cb) w
  = ({| yielded := omap id outs;
        calls := log ++ [(cube, field, filename)];
        raised := Some e |}, w2).
Proof.
  intros Hmatched Hrun Hdec Hraise. unfold matched in Hmatched.
  unfold load_cubes. rewrite load_filespecs_flat, Hmatched, load_filenames_app.
  rewrite (load_filenames_callback _ _ _ _ _ _ _ _ _ _ Hrun). cbn [raised].
  cbn [load_filenames].
  rewrite (load_file_callback _ _ _ _ _ _ _ _ _ Hdec), Hraise. cbn [fst snd].
  by rewrite app_nil_r.
Qed.

(** Loading a list of specifications followed by another is loading the
    first and, unless that ended with an exception, going on with the
    second from where the callback's world was left: what the first list
    yielded stays a prefix of what both yield. *)
Theorem loader_concatenates (l1 l2 : list string) callback w :
  load_cubes fs glob run_callback (ManySpecs (l1 ++ l2)) callback w
  = (let (g, w') := load_cubes fs glob run_callback (ManySpecs l1) callback w in
     match raised g with
     | Some _ => (g, w')
     | None =>
         let (g', w'') := load_cubes fs glob run_callback (ManySpecs l2) callback w' in
         ({| yielded := yielded g ++ yielded g';
             calls := calls g ++ calls g';
             raised := raised g' |}, w'')
     end) /\
  yielded (load_cubes fs glob run_callback (ManySpecs l1) callback w).1
    `prefix_of` yielded (load_cubes fs glob run_callback (ManySpecs (l1 ++ l2)) callback w).1.
Proof.
  assert (Heq :
    load_cubes fs glob run_callback (ManySpecs (l1 ++ l2)) callback w
    = (let (g, w') := load_cubes fs glob run_callback (ManySpecs l1) callback w in
       match raised g with
       | Some _ => (g, w')
       | None =>
           let (g', w'') := load_cubes fs glob run_callback (ManySpecs l2) callback w' in
           ({| yielded := yielded g ++ yielded g';
               calls := calls g ++ calls g';
               raised := raised g' |}, w'')
       end)).
  { unfold load_cubes, normalize.
    rewrite !load_filespecs_flat, fmap_app, concat_app, load_filenames_app.
    destruct (load_filenames fs run_callback callback (concat (glob <$> l1)) w) as [g w'].
    destruct (raised g); [done|]. by rewrite load_filespecs_flat. }
  split; [exact Heq|]. rewrite Heq.
  destruct (load_cubes fs glob run_callback (ManySpecs l1) callback w) as [g w'].
  destruct (raised g); [done|].
  destruct (load_cubes fs glob run_callback (ManySpecs l2) callback w') as [g' w''].
  by apply prefix_app_r.
Qed.

(** When no specification matches a file, the empty list and a pattern
    without matches included, [load_cubes] yields nothing, raises nothing
    and never calls the callback. *)
Theorem loader_without_matches (specs : filespecs) callback w :
  (forall filespec, filespec ∈ normalize specs -> glob filespec = []) ->
  load_cubes fs glob run_callback specs callback w
  = ({| yielded := []; calls := []; raised := None |}, w).
Proof.
  intros Hnone. unfold load_cubes. rewrite load_filespecs_flat.
  assert (Hempty : concat (glob <$> normalize specs) = []).
  { induction (normalize specs) as [|filespec l IH]; [done|].
    cbn. rewrite (Hnone filespec) by (by left). apply IH.
    intros f Hf. apply Hnone. by right. }
  by rewrite Hempty.
Qed.

End LoaderFurther.

(** A pattern that matches the short name of the constructor test. *)
Lemma loader_stops_at_first_failure_witness :
  load_cubes ∅ (fun _ => ["/path/to/abf/file/too_short"]) counting_callback
    (OneSpec "*.abf") (Some tt) 0%nat
  = ({| yielded := []; calls := [];
        raised := Some (ValueError "ABFField expects a filename of 24 characters: too_short") |},
     0%nat).
Proof.
  destruct (loader_stops_at_first_failure ∅ (fun _ => ["/path/to/abf/file/too_short"])
              unit nat counting_callback (OneSpec "*.abf")
              [] "/path/to/abf/file/too_short" []
              (ValueError "ABFField expects a filename of 24 characters: too_short")
              eq_refl eq_refl) as [_ Hcb].
  exact (proj1 (Hcb tt 0%nat [] [] 0%nat (run_done _ _ _ _ _ _))).
Defined.

(** The file of the reader test and a callback that raises. *)
Lemma loader_stops_when_callback_raises_witness :
  exists cube field,
    load_cubes {[ "/path/to/my-prefix12-9876marb-abf" := arange_file (4320 * 2160) ]}
      (fun _ => ["/path/to/my-prefix12-9876marb-abf"])
      (fun (_ : unit) _ _ _ (w : unit) => (inl (TypeError "callback"), w))
      (ManySpecs ["first-filename"; "second-filename"]) (Some tt) tt
    = ({| yielded := [];
          calls := [(cube, field, "/path/to/my-prefix12-9876marb-abf")];
          raised := Some (TypeError "callback") |}, tt).
Proof.
  set (path := "/path/to/my-prefix12-9876marb-abf").
  set (fs := ({[ path := arange_file (4320 * 2160) ]} : gmap string (list byte))).
  destruct (getattr_data_ok fs (fresh path) path 12 9876 3 (arange_file (4320 * 2160))
              (fresh_no_data path) (fresh_filename path))
    as (grid & _ & _ & Hget).
  { vm_compute. reflexivity. }
  { vm_compute. reflexivity. }
  { vm_compute. reflexivity. }
  { apply lookup_singleton_eq. }
  { apply (arange_file_length (4320 * 2160)). lia. }
  destruct (loaded_lookup (fresh path) path 12 9876 3 grid)
    as (_ & Hyear & Hmonth & Hperiod & Hformat & _).
  assert (Hcube := to_cube_ok fs (fresh path) _ _ "abf" "b" 9876 3 "FAPAR" 16
                     (Datetime.days_in_month 9876 3)
                     Hget Hformat Hperiod Hyear Hmonth eq_refl eq_refl
                     ltac:(lia) ltac:(lia)).
  assert (Hdec := decode_file_ok fs path _ _ _ (init_ok path eq_refl) Hcube).
  eexists _, _.
  exact (loader_stops_when_callback_raises fs (fun _ => [path]) unit unit
           (fun _ _ _ _ w => (inl (TypeError "callback"), w))
           (ManySpecs ["first-filename"; "second-filename"])
           [] path [path] tt tt [] [] tt _ _ (TypeError "callback") tt
           eq_refl (run_done _ _ _ _ _ _) Hdec eq_refl).
Defined.

Lemma loader_without_matches_witness :
  load_cubes ∅ (fun _ => []) counting_callback (ManySpecs ["*.abf"; "*.abl"]) (Some tt) 0%nat
  = ({| yielded := []; calls := []; raised := None |}, 0%nat).
Proof.
  apply loader_without_matches. intros filespec _. reflexivity.
Defined.

(** ** The cube and the field it comes from *)

(** The coordinates fit the grid: in a cube built from a file, the
    coordinate attached to a dimension has as many points as the grid has
    cells along that dimension, 2160 latitudes for the rows and 4320
    longitudes for the columns. *)
Theorem coordinates_fit_grid fs (filename : string) (field : pyobj) cube :
  ABFField.to_cube fs (fresh filename) = (inr cube, field) ->
  exists grid,
    Iris.cube_data cube = VArray grid /\
    Np.shape (Np.data grid) = (2160, 4320) /\
    forall coord dim,
      (coord, dim) ∈ Iris.cube_dim_coords cube ->
      (dim = 0 /\ Z.of_nat (length (Iris.dim_points coord)) = (Np.shape (Np.data grid)).1) \/
      (dim = 1 /\ Z.of_nat (length (Iris.dim_points coord)) = (Np.shape (Np.data grid)).2).
Proof.
  intros Hcube.
  destruct (to_cube_fresh fs filename)
    as [(e & s & _ & Hfail)
       |(v & y & m & bytes & grid & _ & _ & _ & _ & _ & Hgrid & _ & Hload)].
  { by rewrite Hfail in Hcube. }
  rewrite Hload in Hcube.
  destruct (loaded_lookup (fresh filename) filename v y m grid)
    as (_ & _ & _ & _ & _ & Hdata & _).
  destruct (to_cube_loaded_inv _ _ _ _ _ Hdata Hcube)
    as (_ & tag & p & y' & m' & _ & _ & _ & _ & _ & _ &
        name & first & last & _ & _ & ->).
  destruct Hgrid as (Hshape & _).
  exists grid. split; [reflexivity|]. split; [exact Hshape|].
  intros coord dim Hin. rewrite Hshape.
  cbn [built_cube Iris.cube_dim_coords] in Hin.
  apply elem_of_cons in Hin as [[= -> ->]|Hin]; [right|].
  { split; [reflexivity|]. apply (axis_points_length X_SIZE 180). by unfold X_SIZE. }
  apply elem_of_cons in Hin as [[= -> ->]|Hin]; [left|by apply elem_of_nil in Hin].
  split; [reflexivity|]. apply (axis_points_length Y_SIZE 90). by unfold Y_SIZE.
Qed.

(** The file of the reader test. *)
Lemma coordinates_fit_grid_witness :
  exists cube grid,
    (ABFField.to_cube {[ "/path/to/my-prefix12-9876marb-abf" := arange_file (4320 * 2160) ]}
       (fresh "/path/to/my-prefix12-9876marb-abf")).1 = inr cube /\
    Iris.cube_data cube = VArray grid /\
    Np.shape (Np.data grid) = (2160, 4320).
Proof.
  set (path := "/path/to/my-prefix12-9876marb-abf").
  set (fs := ({[ path := arange_file (4320 * 2160) ]} : gmap string (list byte))).
  destruct (getattr_data_ok fs (fresh path) path 12 9876 3 (arange_file (4320 * 2160))
              (fresh_no_data path) (fresh_filename path))
    as (grid0 & _ & _ & Hget).
  { vm_compute. reflexivity. }
  { vm_compute. reflexivity. }
  { vm_compute. reflexivity. }
  { apply lookup_singleton_eq. }
  { apply (arange_file_length (4320 * 2160)). lia. }
  destruct (loaded_lookup (fresh path) path 12 9876 3 grid0)
    as (_ & Hyear & Hmonth & Hperiod & Hformat & _).
  assert (Hcube := to_cube_ok fs (fresh path) _ _ "abf" "b" 9876 3 "FAPAR" 16
                     (Datetime.days_in_month 9876 3)
                     Hget Hformat Hperiod Hyear Hmonth eq_refl eq_refl
                     ltac:(lia) ltac:(lia)).
  destruct (coordinates_fit_grid fs path _ _ Hcube) as (grid & Hdata & Hshape & _).
  eexists _, grid. split; [rewrite Hcube; reflexivity|].
  split; [exact Hdata|exact Hshape].
Defined.

(** The cube is made of the grid, the format, the period, the year and
    the month of the field and of nothing else: two fields that agree on
    these five, whatever their versions, file names or other attributes,
    give the same cube. *)
Theorem cube_ignores_version fs fs' (s1 s2 f1 : pyobj) cube d :
  ABFField.to_cube fs s1 = (inr cube, f1) ->
  s2 !! "data" = Some d ->
  f1 !! "data" = Some d ->
  s2 !! "format" = f1 !! "format" ->
  s2 !! "period" = f1 !! "period" ->
  s2 !! "year" = f1 !! "year" ->
  s2 !! "month" = f1 !! "month" ->
  ABFField.to_cube fs' s2 = (inr cube, s2).
Proof.
  intros Hcube Hd2 Hd1 Hf Hp Hy Hm.
  destruct (to_cube_inv _ _ _ _ Hcube)
    as (d' & tag & p & y & m & _ & Hd' & Hf1 & Hp1 & Hy1 & Hm1 & Hyr & Hmr &
        name & first & last & Hname & Hdays & ->).
  rewrite Hd1 in Hd'. injection Hd' as <-.
  rewrite Hf1 in Hf. rewrite Hp1 in Hp. rewrite Hy1 in Hy. rewrite Hm1 in Hm.
  by apply (to_cube_loaded_ok fs' s2 d tag p y m).
Qed.

Lemma cube_ignores_version_witness :
  ABFField.to_cube ∅ (<["version" := VInt 7]> (mock_field "abf" "a" 2020 4))
  = ((ABFField.to_cube ∅ (mock_field "abf" "a" 2020 4)).1,
     <["version" := VInt 7]> (mock_field "abf" "a" 2020 4)).
Proof.
  destruct (mock_field_lookup "abf" "a" 2020 4) as (Hd & Hf & Hp & Hy & Hm).
  assert (Hcube := to_cube_ok ∅ _ _ _ "abf" "a" 2020 4 "FAPAR" 1 15
                     Hd Hf Hp Hy Hm eq_refl eq_refl ltac:(lia) ltac:(lia)).
  rewrite Hcube. cbn [fst].
  apply (cube_ignores_version ∅ ∅ _ _ _ _ (VStr "DATA") Hcube); reflexivity.
Defined.
